(** * StockScreener: a shallow embedding of [screener.py]

    The script screens a universe of symbols against a technical rule in a
    thread pool, subscribes the surviving symbols to a live feed and tears the
    feeds down on SIGINT.  The embedding follows the source function by
    function:

    - the script is written once, over an arithmetic [Arith] that says what
      a cell of a frame is, how Python compares and multiplies cells and what
      pandas returns for a mean.  [binary64] is the arithmetic of the
      program: IEEE doubles, with the means of pandas as they come out of
      the library.  [rationals] has rationals and NaN and means without
      rounding; it serves where rounding plays no part;
    - the effects of the script (the logger, the global [stop_flag] and
      [seis_list], calls on the live feed, exceptions and [sys.exit]) are
      threaded through a state-and-exception monad [M];
    - the external collaborators (the TradingView provider [tvl], the [ta]
      momentum indicator, the spreadsheet reader, the order in which the
      thread pool completes futures) are variables of the section. *)

Set Warnings "-inexact-float".

From Corelib Require Import PrimFloat.
From Stdlib Require Import Ascii String List Bool Arith ZArith Lia QArith Lqa Permutation.
Import ListNotations.

Local Open Scope string_scope.
Local Open Scope list_scope.
Local Open Scope nat_scope.

(** ** Numbers *)

(** What the script asks of its numbers: the cells of a frame, Python's
    [a > b], [a >= b], [a < b] and [a * b] on them, the literals [0.999] and
    [70] of line 98, and the two means it takes from pandas:
    [window_mean w xs] is the latest entry of
    [xs.rolling(window=w).mean()] and [series_mean xs] is [xs.mean()]. *)
Class Arith : Type := {
  num : Type;
  NaN : num;
  gt : num -> num -> bool;
  ge : num -> num -> bool;
  lt : num -> num -> bool;
  mul : num -> num -> num;
  c_0_999 : num;
  c_70 : num;
  window_mean : nat -> list num -> num;
  series_mean : list num -> num }.

(** *** The doubles of the program *)

Section Binary64.

(** The two means are computed inside pandas. *)
Variable pandas_rolling_mean : nat -> list float -> float.
Variable pandas_mean : list float -> float.

Definition binary64 : Arith :=
  {| num := float;
     NaN := PrimFloat.nan;
     gt := fun a b => PrimFloat.ltb b a;
     ge := fun a b => PrimFloat.leb b a;
     lt := fun a b => PrimFloat.ltb a b;
     mul := PrimFloat.mul;
     c_0_999 := 0.999%float;
     c_70 := 70%float;
     window_mean := pandas_rolling_mean;
     series_mean := pandas_mean |}.

End Binary64.

(** *** Exact arithmetic: a cell is a rational or NaN *)

Definition qnum := option Q.

Definition Qlt_bool (x y : Q) : bool := negb (Qle_bool y x).

Definition qgt (a b : qnum) : bool :=
  match a, b with Some x, Some y => Qlt_bool y x | _, _ => false end.
Definition qge (a b : qnum) : bool :=
  match a, b with Some x, Some y => Qle_bool y x | _, _ => false end.
Definition qlt (a b : qnum) : bool :=
  match a, b with Some x, Some y => Qlt_bool x y | _, _ => false end.
Definition qmul (a b : qnum) : qnum :=
  match a, b with Some x, Some y => Some (x * y)%Q | _, _ => None end.

Definition qsum (xs : list Q) : Q := fold_right Qplus 0%Q xs.
Definition qmean (xs : list Q) : Q := (qsum xs / inject_Z (Z.of_nat (length xs)))%Q.

(** The values of a window when none of them is NaN. *)
Fixpoint all_finite (xs : list qnum) : option (list Q) :=
  match xs with
  | [] => Some []
  | Some x :: xs' => option_map (cons x) (all_finite xs')
  | None :: _ => None
  end.

(** The non-NaN values of a series. *)
Fixpoint dropna (xs : list qnum) : list Q :=
  match xs with
  | [] => []
  | Some x :: xs' => x :: dropna xs'
  | None :: xs' => dropna xs'
  end.

(** The mean of the [w] most recent observations of [xs]; NaN when the
    window is empty, when [xs] has fewer than [w] observations or when one
    of the [w] is NaN. *)
Definition qwindow_mean (w : nat) (xs : list qnum) : qnum :=
  if (w =? 0) || (length xs <? w) then None
  else option_map qmean (all_finite (skipn (length xs - w) xs)).

(** NaN cells are skipped; NaN when nothing is left. *)
Definition qseries_mean (xs : list qnum) : qnum :=
  match dropna xs with
  | [] => None
  | vs => Some (qmean vs)
  end.

#[global] Instance rationals : Arith :=
  {| num := qnum;
     NaN := None;
     gt := qgt;
     ge := qge;
     lt := qlt;
     mul := qmul;
     c_0_999 := Some 0.999%Q;
     c_70 := Some 70%Q;
     window_mean := qwindow_mean;
     series_mean := qseries_mean |}.

Definition Fin (q : Q) : num := Some q.

(** ** Data frames *)

(** A symbol is a Python string of code points below 256, one character
    each. *)
Definition Symbol := string.

Record bar (num : Type) := {
  open : num; high : num; low : num; close : num; volume : num }.
Arguments open {num} _.
Arguments high {num} _.
Arguments low {num} _.
Arguments close {num} _.
Arguments volume {num} _.

(** The frame returned by [get_hist]: one row per bar, oldest first. *)
Definition DataFrame `{arith : Arith} : Type := list (bar num).

(** [Series.rolling(window=w).mean()]: the entry of row [i] is the mean
    pandas has reached at row [i], which it computes from the rows up to
    [i]. *)
Definition rolling_mean `{arith : Arith} (w : nat) (xs : list num) : list num :=
  map (fun i => window_mean w (firstn (S i) xs)) (seq 0 (length xs)).

(** ** Outcomes of a call *)

Definition exn := string.

Inductive outcome (A : Type) : Type :=
| Ok (a : A)                  (* normal return *)
| Raise (e : exn)             (* an [Exception] *)
| SystemExit (status : Z).    (* [sys.exit]; not caught by [except Exception] *)
Arguments Ok {A} a.
Arguments Raise {A} e.
Arguments SystemExit {A} status.

(** What a call into a library comes back with. *)
Inductive response (A : Type) : Type :=
| Returns (a : A)
| Raises (e : exn).
Arguments Returns {A} a.
Arguments Raises {A} e.

(** [Series.iloc[-1]] *)
Fixpoint iloc_last {A : Type} (xs : list A) : response A :=
  match xs with
  | [] => Raises "IndexError: single positional indexer is out-of-bounds"
  | [x] => Returns x
  | _ :: xs' => iloc_last xs'
  end.

(** ** Configuration *)

Definition USERNAME : string := "username".
Definition PASSWORD : string := "password".
Definition N_BARS : nat := 365.
Definition MAX_WORKERS : nat := 3.

(** ** Logging *)

Inductive level := DEBUG | INFO | WARNING | ERROR | CRITICAL.
Definition LogRecord := (level * string)%type.

(** An f-string: the concatenation of its pieces. *)
Definition fstr (pieces : list string) : string := String.concat "" pieces.

(** [repr] of a string.  Python writes it between single quotes, or between
    double quotes when it holds a single quote and no double quote; it
    escapes the backslash and the quote it chose, writes tab, line feed and
    carriage return as [\t], [\n] and [\r], and every other code point that
    is not printable as [\xhh]. *)
Definition squote : Ascii.ascii := "'"%char.
Definition dquote : Ascii.ascii := Ascii.ascii_of_nat 34.
Definition backslash : Ascii.ascii := Ascii.ascii_of_nat 92.

Definition hex_digit (n : nat) : Ascii.ascii :=
  nth n (list_ascii_of_string "0123456789abcdef") "0"%char.

(** The printable code points below 256: the ASCII ones from the space to
    the tilde, and those from 161 on but the soft hyphen. *)
Definition isprintable (n : nat) : bool :=
  ((32 <=? n) && (n <? 127)) || ((161 <=? n) && negb (n =? 173)).

Definition repr_char (quote c : Ascii.ascii) : string :=
  let n := Ascii.nat_of_ascii c in
  if Ascii.eqb c quote || Ascii.eqb c backslash
  then String backslash (String c EmptyString)
  else if n =? 9 then String backslash "t"
  else if n =? 10 then String backslash "n"
  else if n =? 13 then String backslash "r"
  else if isprintable n then String c EmptyString
  else String backslash
         (String "x"%char
            (String (hex_digit (n / 16))
               (String (hex_digit (n mod 16)) EmptyString))).

Definition repr (s : string) : string :=
  let chars := list_ascii_of_string s in
  let quote :=
    if existsb (Ascii.eqb squote) chars && negb (existsb (Ascii.eqb dquote) chars)
    then dquote else squote in
  String quote
    (String.append (String.concat "" (map (repr_char quote) chars))
       (String quote EmptyString)).

(** [str] of a list of symbols, as [logger.info(selected_stocks)] prints
    it: the [repr] of every symbol. *)
Definition repr_symbols (l : list Symbol) : string :=
  fstr ["["; String.concat ", " (map repr l); "]"].

Section Screener.

(** The provider's interval enumeration and the configured interval. *)
Context `{arith : Arith}.
Context {Interval : Type}.
Variable INTERVAL : Interval.

(** ** The world of the script *)

(** A live feed object handed out by [tvl.new_seis]; [seis_id] is its
    identity (the number of feeds opened before it). *)
Record Seis := {
  seis_id : nat;
  seis_symbol : Symbol;
  seis_exchange : string;
  seis_interval : Interval }.

(** Calls made on the live feed boundary. *)
Inductive tv_call :=
| new_seis (s : Symbol) (exchange : string) (i : Interval)
| new_consumer (seis : Seis)
| del_consumer (seis : Seis)
| del_seis (seis : Seis).

Record World := {
  log : list LogRecord;        (* records emitted so far, oldest first *)
  stop_flag : bool;            (* the global [threading.Event] *)
  seis_list : list Seis;       (* the global list of tracked feeds *)
  tv_calls : list tv_call }.   (* live feed calls attempted so far *)

Definition World0 : World :=
  {| log := []; stop_flag := false; seis_list := []; tv_calls := [] |}.

(** ** The monad: state, exceptions and process exit *)

Definition M (A : Type) : Type := World -> outcome A * World.

Definition ret {A} (a : A) : M A := fun w => (Ok a, w).

Definition bind {A B} (m : M A) (k : A -> M B) : M B :=
  fun w =>
    match m w with
    | (Ok a, w') => k a w'
    | (Raise e, w') => (Raise e, w')
    | (SystemExit n, w') => (SystemExit n, w')
    end.

Notation "x <- m ;; k" := (bind m (fun x => k))
  (at level 61, m at next level, right associativity).
Notation "m ;;; k" := (bind m (fun _ => k))
  (at level 61, right associativity).

(** [try: m except Exception as e: h e] *)
Definition try_except {A} (m : M A) (h : exn -> M A) : M A :=
  fun w =>
    match m w with
    | (Raise e, w') => h e w'
    | r => r
    end.

(** A library call that touches nothing of the script's state. *)
Definition call {A} (r : response A) : M A :=
  fun w =>
    match r with
    | Returns a => (Ok a, w)
    | Raises e => (Raise e, w)
    end.

Definition sys_exit {A} (status : Z) : M A := fun w => (SystemExit status, w).

Definition logger (lv : level) (msg : string) : M unit :=
  fun w => (Ok tt, {| log := log w ++ [(lv, msg)]; stop_flag := stop_flag w;
                      seis_list := seis_list w; tv_calls := tv_calls w |}).

(** ** Historical data and indicators *)

(** [tvl.get_hist(symbol, exchange, interval, n_bars)]: a frame, [None], or
    an exception. *)
Variable get_hist : Symbol -> string -> Interval -> nat -> response (option DataFrame).

(** [ta.momentum.RSIIndicator(close, window).rsi()]: the momentum column. *)
Variable RSIIndicator : list num -> nat -> response (list num).

Definition fetch_historical_data (symbol : Symbol) (exchange : string)
    (interval : Interval) (n_bars : nat) : M (option DataFrame) :=
  try_except
    (df <- call (get_hist symbol exchange interval n_bars) ;;
     match df with
     | None | Some [] =>
         logger WARNING (fstr ["No data available for symbol: "; symbol]) ;;;
         ret None
     | Some df => ret (Some df)
     end)
    (fun e =>
       logger ERROR (fstr ["Error fetching data for "; symbol; ": "; e]) ;;;
       ret None).

(** The frame with its three added columns. *)
Record IndicatorFrame := {
  bars : DataFrame;
  DMA50 : list num;
  DMA200 : list num;
  RSI : list num }.

Definition calculate_indicators (df : DataFrame) : M IndicatorFrame :=
  let dma50 := rolling_mean 50 (map close df) in
  let dma200 := rolling_mean 200 (map close df) in
  rsi <- call (RSIIndicator (map close df) 14) ;;
  ret {| bars := df; DMA50 := dma50; DMA200 := dma200; RSI := rsi |}.

Definition criteria (current_price dma_50 dma_200 day_high rsi
                     avg_volume current_volume : num) : bool :=
  gt current_price dma_50 && gt current_price dma_200
  && ge current_price (mul day_high c_0_999)
  && lt rsi c_70 && gt current_volume avg_volume.

Definition screen_stock (symbol : Symbol) (interval : Interval) (n_bars : nat)
  : M (option Symbol) :=
  logger INFO (fstr ["Screening stock: "; symbol]) ;;;
  df <- fetch_historical_data symbol "NSE" interval n_bars ;;
  match df with
  | Some df =>
      if 200 <=? length df then
        df <- calculate_indicators df ;;
        current_price <- call (iloc_last (map close (bars df))) ;;
        dma_50 <- call (iloc_last (DMA50 df)) ;;
        dma_200 <- call (iloc_last (DMA200 df)) ;;
        day_high <- call (iloc_last (map high (bars df))) ;;
        rsi <- call (iloc_last (RSI df)) ;;
        let avg_volume := series_mean (map volume (bars df)) in
        current_volume <- call (iloc_last (map volume (bars df))) ;;
        if criteria current_price dma_50 dma_200 day_high rsi
                    avg_volume current_volume
        then
          logger CRITICAL (fstr ["Stock "; symbol; " meets the criteria"]) ;;;
          ret (Some symbol)
        else ret None
      else ret None
  | None => ret None
  end.

(** ** Loading the universe *)

(** [pd.read_excel(file_path)['Symbol'].tolist()] *)
Variable read_excel : string -> response (list Symbol).

(** The directory of the script. *)
Variable current_dir : string.
Definition FILE_PATH : string := fstr [current_dir; "/"; "MCAP28032024.xlsx"].

Definition load_stock_symbols (file_path : string) : M (list Symbol) :=
  try_except
    (stock_symbols <- call (read_excel file_path) ;;
     logger INFO "Stock symbols loaded successfully." ;;;
     ret stock_symbols)
    (fun e =>
       logger ERROR (fstr ["Error loading stock symbols: "; e]) ;;;
       sys_exit 1).

(** ** The batch screen (lines 117-125 of [main]) *)

(** [if result:] on what a future returns: [None] and the empty string are
    falsy. *)
Definition truthy (result : option Symbol) : bool :=
  match result with
  | Some s => negb (String.eqb s "")
  | None => false
  end.

(** The loop over [as_completed(futures)].  [completed] lists the submitted
    units in the order the pool hands them back; the unit of a future is run
    where its result is collected, so the records of one unit stay together
    in the log.  [collect] is the body of the loop. *)
Definition collect (symbol : Symbol) (selected_stocks : list Symbol)
  : M (list Symbol) :=
  try_except
    (result <- screen_stock symbol INTERVAL N_BARS ;;
     match result with
     | Some r => if truthy result then ret (selected_stocks ++ [r])
                 else ret selected_stocks
     | None => ret selected_stocks
     end)
    (fun e =>
       logger ERROR (fstr ["Error screening stock: "; e]) ;;;
       ret selected_stocks).

Fixpoint main_screen (completed : list Symbol) (selected_stocks : list Symbol)
  : M (list Symbol) :=
  match completed with
  | [] => ret selected_stocks
  | symbol :: rest =>
      selected_stocks <- collect symbol selected_stocks ;;
      main_screen rest selected_stocks
  end.

(** ** Subscriptions (lines 132-135 of [main]) *)

(** Whether a call on the live feed raises. *)
Variable tv_raises : tv_call -> option exn.

(** A call on the live feed: it is recorded, then returns or raises. *)
Definition tv (c : tv_call) : M unit :=
  fun w =>
    let w' := {| log := log w; stop_flag := stop_flag w;
                 seis_list := seis_list w; tv_calls := tv_calls w ++ [c] |} in
    match tv_raises c with
    | Some e => (Raise e, w')
    | None => (Ok tt, w')
    end.

Definition is_new_seis (c : tv_call) : bool :=
  match c with new_seis _ _ _ => true | _ => false end.

Definition tvl_new_seis (symbol : Symbol) (exchange : string) (interval : Interval)
  : M Seis :=
  fun w =>
    let seis := {| seis_id := length (filter is_new_seis (tv_calls w));
                   seis_symbol := symbol; seis_exchange := exchange;
                   seis_interval := interval |} in
    (tv (new_seis symbol exchange interval) ;;; ret seis) w.

Definition seis_list_append (seis : Seis) : M unit :=
  fun w => (Ok tt, {| log := log w; stop_flag := stop_flag w;
                      seis_list := seis_list w ++ [seis];
                      tv_calls := tv_calls w |}).

Fixpoint main_subscribe (selected_stocks : list Symbol) : M unit :=
  match selected_stocks with
  | [] => ret tt
  | symbol :: rest =>
      seis <- tvl_new_seis symbol "NSE" INTERVAL ;;
      tv (new_consumer seis) ;;;
      seis_list_append seis ;;;
      main_subscribe rest
  end.

(** The thread pool hands the futures back in some order of its own. *)
Variable as_completed : list Symbol -> list Symbol.

Definition main : M unit :=
  let selected_stocks := [] in
  stock_symbols <- load_stock_symbols FILE_PATH ;;
  selected_stocks <-
    match stock_symbols with
    | _ :: _ =>
        selected_stocks <- main_screen (as_completed stock_symbols) selected_stocks ;;
        logger INFO "Stocks with current price above 50 DMA and 200 DMA, 0.1% below day's high, and favorable volume and RSI conditions:" ;;;
        logger INFO (repr_symbols selected_stocks) ;;;
        ret selected_stocks
    | [] =>
        logger WARNING "No stocks to screen." ;;;
        ret selected_stocks
    end ;;
  main_subscribe selected_stocks.

(** [seis.interval.name] *)
Variable interval_name : Interval -> string.

(** The consumer of every feed; [data] is the frame as the logger prints it. *)
Definition consumer_func (seis : Seis) (data : string) : M unit :=
  logger INFO (fstr ["Received new data for "; seis_symbol seis; " on ";
                     seis_exchange seis; " at ";
                     interval_name (seis_interval seis); ":"]) ;;;
  logger INFO data.

(** ** Shutdown *)

Definition stop_flag_set : M unit :=
  fun w => (Ok tt, {| log := log w; stop_flag := true;
                      seis_list := seis_list w; tv_calls := tv_calls w |}).

Fixpoint teardown (l : list Seis) : M unit :=
  match l with
  | [] => ret tt
  | seis :: rest =>
      tv (del_consumer seis) ;;;
      tv (del_seis seis) ;;;
      teardown rest
  end.

Definition signal_handler : M unit :=
  logger INFO "Stopping script..." ;;;
  stop_flag_set ;;;
  (fun w => teardown (seis_list w) w) ;;;
  sys_exit 0.

(** ** The script *)

(** [TvDatafeedLive(USERNAME, PASSWORD)] *)
Variable TvDatafeedLive : string -> string -> response unit.

Definition script : M unit :=
  logger INFO "Attempting to initialize TvDatafeedLive with provided credentials..." ;;;
  try_except
    (call (TvDatafeedLive USERNAME PASSWORD) ;;;
     logger INFO "Successfully initialized TvDatafeedLive.")
    (fun e =>
       logger ERROR (fstr ["Failed to initialize TvDatafeedLive: "; e]) ;;;
       sys_exit 1) ;;;
  main.

(** SIGINT once [main] has returned and the feeds are live. *)
Definition script_then_sigint : M unit := script ;;; signal_handler.

(** The status the process ends with: an uncaught exception ends it with 1. *)
Definition exit_status {A} (r : outcome A) : Z :=
  match r with
  | Ok _ => 0
  | Raise _ => 1
  | SystemExit n => n
  end.

End Screener.

Arguments Seis : clear implicits.
Arguments tv_call : clear implicits.
Arguments World : clear implicits.
Arguments M : clear implicits.

Notation "x <- m ;; k" := (bind m (fun x => k))
  (at level 61, m at next level, right associativity).
Notation "m ;;; k" := (bind m (fun _ => k))
  (at level 61, right associativity).

(** ** Reading a run *)

(** The world after [l] more log records. *)
Definition emit {Interval} (l : list LogRecord) (w : World Interval) : World Interval :=
  {| log := log w ++ l; stop_flag := stop_flag w;
     seis_list := seis_list w; tv_calls := tv_calls w |}.

(** The world after the live feed calls [cs]. *)
Definition called {Interval} (cs : list (tv_call Interval)) (w : World Interval)
  : World Interval :=
  {| log := log w; stop_flag := stop_flag w;
     seis_list := seis_list w; tv_calls := tv_calls w ++ cs |}.

(** [m] only writes to the log: whatever the world, it ends with [r] after
    emitting the records [l]. *)
Definition logs_only {Interval A} (m : M Interval A) (r : outcome A)
    (l : list LogRecord) : Prop :=
  forall w, m w = (r, emit l w).

(** What the batch makes of a future. *)
Inductive verdict := Pass | NotPass | Failed (e : exn) | Exited (status : Z).

Definition verdict_of (r : outcome (option Symbol)) : verdict :=
  match r with
  | Ok (Some _) => Pass
  | Ok None => NotPass
  | Raise e => Failed e
  | SystemExit n => Exited n
  end.

(** Whether the batch appends [symbol] when its future completes. *)
Definition selected `{arith : Arith} {Interval} (INTERVAL : Interval) get_hist RSIIndicator
    (symbol : Symbol) : bool :=
  match fst (screen_stock get_hist RSIIndicator symbol INTERVAL N_BARS World0) with
  | Ok r => truthy r
  | _ => false
  end.

(** The records one future leaves in the log. *)
Definition records `{arith : Arith} {Interval} (INTERVAL : Interval) get_hist RSIIndicator
    (symbol : Symbol) : list LogRecord :=
  log (snd (collect INTERVAL get_hist RSIIndicator symbol [] World0)).

(** The data of [symbol] is unavailable: the provider raises, returns
    nothing, or returns fewer than 200 bars (an empty frame among them). *)
Definition unavailable `{arith : Arith} {Interval} (INTERVAL : Interval)
    (get_hist : Symbol -> string -> Interval -> nat -> response (option DataFrame))
    (symbol : Symbol) : Prop :=
  (exists e, get_hist symbol "NSE" INTERVAL N_BARS = Raises e) \/
  get_hist symbol "NSE" INTERVAL N_BARS = Returns None \/
  (exists df, get_hist symbol "NSE" INTERVAL N_BARS = Returns (Some df) /\
              length df < 200).

(** The unit of [symbol] fails and leaves [rec] in the log: the provider
    raises, there is no data, or the momentum indicator raises on a frame of
    at least 200 bars. *)
Definition fails `{arith : Arith} {Interval} (INTERVAL : Interval)
    (get_hist : Symbol -> string -> Interval -> nat -> response (option DataFrame))
    (RSIIndicator : list num -> nat -> response (list num))
    (symbol : Symbol) (rec : LogRecord) : Prop :=
  (exists e, get_hist symbol "NSE" INTERVAL N_BARS = Raises e /\
             rec = (ERROR, fstr ["Error fetching data for "; symbol; ": "; e])) \/
  ((get_hist symbol "NSE" INTERVAL N_BARS = Returns None \/
    get_hist symbol "NSE" INTERVAL N_BARS = Returns (Some [])) /\
   rec = (WARNING, fstr ["No data available for symbol: "; symbol])) \/
  (exists df e, get_hist symbol "NSE" INTERVAL N_BARS = Returns (Some df) /\
                200 <= length df /\
                (RSIIndicator (map close df) 14 = Raises e \/
                 exists rsi, RSIIndicator (map close df) 14 = Returns rsi /\
                             iloc_last rsi = Raises e) /\
                rec = (ERROR, fstr ["Error screening stock: "; e])).

(** Feeds opened, consumers attached and feeds tracked for one symbol. *)
Definition opens {Interval} (s : Symbol) (c : tv_call Interval) : bool :=
  match c with new_seis s' _ _ => String.eqb s' s | _ => false end.
Definition attaches {Interval} (s : Symbol) (c : tv_call Interval) : bool :=
  match c with new_consumer seis => String.eqb (seis_symbol seis) s | _ => false end.
Definition feeds_opened {Interval} (s : Symbol) (calls : list (tv_call Interval)) : nat :=
  length (filter (opens s) calls).
Definition consumers_attached {Interval} (s : Symbol) (calls : list (tv_call Interval)) : nat :=
  length (filter (attaches s) calls).
Definition tracked {Interval} (s : Symbol) (l : list (Seis Interval)) : nat :=
  length (filter (fun seis => String.eqb (seis_symbol seis) s) l).

(** The calls of a complete teardown of [l]. *)
Definition teardown_calls {Interval} (l : list (Seis Interval)) : list (tv_call Interval) :=
  flat_map (fun seis => [del_consumer seis; del_seis seis]) l.

(** Feeds closed and consumers detached for one symbol. *)
Definition closes {Interval} (s : Symbol) (c : tv_call Interval) : bool :=
  match c with del_seis seis => String.eqb (seis_symbol seis) s | _ => false end.
Definition detaches {Interval} (s : Symbol) (c : tv_call Interval) : bool :=
  match c with del_consumer seis => String.eqb (seis_symbol seis) s | _ => false end.
Definition feeds_closed {Interval} (s : Symbol) (calls : list (tv_call Interval)) : nat :=
  length (filter (closes s) calls).
Definition consumers_detached {Interval} (s : Symbol) (calls : list (tv_call Interval)) : nat :=
  length (filter (detaches s) calls).

(** The calls that open the feeds [new] and attach their consumers. *)
Definition subscribe_calls {Interval} (INTERVAL : Interval) (new : list (Seis Interval))
  : list (tv_call Interval) :=
  flat_map (fun seis => [new_seis (seis_symbol seis) "NSE" INTERVAL;
                         new_consumer seis]) new.

(** The record a unit opens with, and how often a log holds that of [s]. *)
Definition screening (s : Symbol) : LogRecord :=
  (INFO, fstr ["Screening stock: "; s]).
Definition is_screening (s : Symbol) (rec : LogRecord) : bool :=
  match fst rec with
  | INFO => String.eqb (snd rec) (fstr ["Screening stock: "; s])
  | _ => false
  end.
Definition screenings (s : Symbol) (l : list LogRecord) : nat :=
  length (filter (is_screening s) l).


(** The [w] most recent entries of a column. *)
Definition recent {A} (w : nat) (xs : list A) : list A := skipn (length xs - w) xs.

(** ** The rule in the spec's words *)

(** The values attached to the latest bar of a series. *)
Record Snapshot (T : Type) := {
  current_close : T;
  short_ma : T;
  long_ma : T;
  day_high : T;
  momentum : T;
  current_volume : T;
  mean_volume : T }.
Arguments Build_Snapshot {T}.
Arguments current_close {T} _.
Arguments short_ma {T} _.
Arguments long_ma {T} _.
Arguments day_high {T} _.
Arguments momentum {T} _.
Arguments current_volume {T} _.
Arguments mean_volume {T} _.

(** The five conditions on doubles: IEEE 754 comparisons, false as soon as
    one side is NaN, and a product rounded to the nearest double. *)
Definition five_conditions_binary64 (s : Snapshot float) : Prop :=
  (short_ma s <? current_close s)%float = true /\
  (long_ma s <? current_close s)%float = true /\
  (day_high s * 0.999 <=? current_close s)%float = true /\
  (momentum s <? 70)%float = true /\
  (mean_volume s <? current_volume s)%float = true.

(** [s] holds what the program reads off [df]: the latest close, high and
    volume, the latest entries of the 50- and 200-bar rolling means of the
    close as pandas returns them, the latest entry of the momentum column
    and the mean pandas returns for the volume. *)
Definition snapshot_of (pandas_rolling_mean : nat -> list float -> float)
    (pandas_mean : list float -> float)
    (RSIIndicator : list float -> nat -> response (list float))
    (df : list (bar float)) (s : Snapshot float) : Prop :=
  iloc_last (map close df) = Returns (current_close s) /\
  pandas_rolling_mean 50 (map close df) = short_ma s /\
  pandas_rolling_mean 200 (map close df) = long_ma s /\
  iloc_last (map high df) = Returns (day_high s) /\
  (exists rsi, RSIIndicator (map close df) 14 = Returns rsi /\
               iloc_last rsi = Returns (momentum s)) /\
  iloc_last (map volume df) = Returns (current_volume s) /\
  pandas_mean (map volume df) = mean_volume s.

Definition scenario (rsi : float) (s : Snapshot float) : Prop :=
  (current_close s = 105 /\ short_ma s = 100 /\ long_ma s = 98 /\
   day_high s = 105.1 /\ momentum s = rsi /\
   current_volume s = 2000000 /\ mean_volume s = 1500000)%float.

(** The five conditions in exact arithmetic. *)
Definition five_conditions (s : Snapshot Q) : Prop :=
  (short_ma s < current_close s /\
   long_ma s < current_close s /\
   0.999 * day_high s <= current_close s /\
   momentum s < 70 /\
   mean_volume s < current_volume s)%Q.

(** ** The thread pool *)

(** [ThreadPoolExecutor(max_workers)] as the script drives it: line 118
    queues one unit per symbol, a worker takes the oldest queued unit while
    fewer than [max_workers] are in flight, a unit in flight finishes at any
    time, and SIGINT sets the flag (line 143).  No step reads the flag: the
    script never calls [stop_flag.is_set()]. *)
Module Pool.

Record state := {
  pending : list Symbol;       (* queued, oldest first *)
  in_flight : list Symbol;     (* running [screen_stock] *)
  completed : list Symbol;     (* finished, oldest first *)
  stop_flag : bool }.

Inductive event := Start | Finish (s : Symbol) | Sigint.

Definition submit_all (stock_symbols : list Symbol) : state :=
  {| pending := stock_symbols; in_flight := []; completed := [];
     stop_flag := false |}.

Fixpoint remove_one (s : Symbol) (l : list Symbol) : list Symbol :=
  match l with
  | [] => []
  | x :: l' => if String.eqb x s then l' else x :: remove_one s l'
  end.

Definition step (max_workers : nat) (st : state) (ev : event) : option state :=
  match ev with
  | Start =>
      match pending st with
      | s :: rest =>
          if length (in_flight st) <? max_workers then
            Some {| pending := rest; in_flight := in_flight st ++ [s];
                    completed := completed st; stop_flag := stop_flag st |}
          else None
      | [] => None
      end
  | Finish s =>
      if existsb (String.eqb s) (in_flight st) then
        Some {| pending := pending st; in_flight := remove_one s (in_flight st);
                completed := completed st ++ [s]; stop_flag := stop_flag st |}
      else None
  | Sigint =>
      Some {| pending := pending st; in_flight := in_flight st;
              completed := completed st; stop_flag := true |}
  end.

Fixpoint run (max_workers : nat) (st : state) (evs : list event) : option state :=
  match evs with
  | [] => Some st
  | ev :: evs' =>
      match step max_workers st ev with
      | Some st' => run max_workers st' evs'
      | None => None
      end
  end.

(** Nothing is queued or in flight any more. *)
Definition drained (st : state) : Prop := pending st = [] /\ in_flight st = [].

End Pool.

(** ** A concrete universe *)

Inductive DailyInterval := in_daily.

Definition flat (price vol : Q) : bar num :=
  {| open := Fin price; high := Fin price; low := Fin price;
     close := Fin price; volume := Fin vol |}.

(** 250 daily bars whose latest bar closes at 105 under a high of 105.1 on a
    volume of 2M; the last 50 closes average 100, the last 200 average 98 and
    the volume averages 1.5M. *)
Definition scenario_frame : DataFrame :=
  repeat (flat 90 1500000) 50 ++ repeat (flat 97 1500000) 100
  ++ repeat (flat 98 1500000) 50 ++ repeat (flat 100 1500000) 48
  ++ [flat 95 1000000;
      {| open := Fin 100; high := Fin 105.1; low := Fin 99;
         close := Fin 105; volume := Fin 2000000 |}].

(** 120 bars that end like [scenario_frame]. *)
Definition short_frame : DataFrame := skipn 130 scenario_frame.

(** 200 bars of a flat market: the close is not above its averages. *)
Definition flat_frame : DataFrame := repeat (flat 100 1500000) 200.

Definition demo_hist (symbol : Symbol) (exchange : string)
    (interval : DailyInterval) (n_bars : nat) : response (option DataFrame) :=
  if String.eqb symbol "RELIANCE" then Returns (Some scenario_frame)
  else if String.eqb symbol "INFY" then Returns (Some scenario_frame)
  else if String.eqb symbol "TCS" then Returns (Some flat_frame)
  else if String.eqb symbol "NEWIPO" then Returns (Some short_frame)
  else if String.eqb symbol "HALTED" then Returns (Some [])
  else if String.eqb symbol "TIMEOUT" then Raises "ConnectionError"
  else Returns None.

(** The same provider with RELIANCE timing out. *)
Definition outage_hist (symbol : Symbol) (exchange : string)
    (interval : DailyInterval) (n_bars : nat) : response (option DataFrame) :=
  if String.eqb symbol "RELIANCE" then Raises "ConnectionError"
  else demo_hist symbol exchange interval n_bars.

(** A momentum column that reads [v] on every bar. *)
Definition const_rsi (v : Q) (closes : list num) (window : nat)
  : response (list num) :=
  Returns (map (fun _ => Fin v) closes).

Definition quiet_feed (c : tv_call DailyInterval) : option exn := None.

(** A feed whose consumers cannot be detached for RELIANCE. *)
Definition stuck_feed (c : tv_call DailyInterval) : option exn :=
  match c with
  | del_consumer seis =>
      if String.eqb (seis_symbol seis) "RELIANCE" then Some "DetachError" else None
  | _ => None
  end.

Definition demo_excel (universe : list Symbol) (file_path : string)
  : response (list Symbol) := Returns universe.

(** The spreadsheet is not where the script looks for it. *)
Definition missing_excel (file_path : string) : response (list Symbol) :=
  Raises "FileNotFoundError".

Definition demo_login (username password : string) : response unit := Returns tt.

Definition in_order (futures : list Symbol) : list Symbol := futures.

(** The script on a universe that lists RELIANCE twice. *)
Definition duplicate_run : outcome unit * World DailyInterval :=
  script in_daily demo_hist (const_rsi 55) (demo_excel ["RELIANCE"; "RELIANCE"])
    "/opt/screener" quiet_feed in_order demo_login World0.

(** The script on RELIANCE and INFY, interrupted once the feeds are live,
    on a feed that cannot detach the consumer of RELIANCE. *)
Definition interrupted_run : outcome unit * World DailyInterval :=
  script_then_sigint in_daily demo_hist (const_rsi 55)
    (demo_excel ["RELIANCE"; "INFY"]) "/opt/screener" stuck_feed in_order
    demo_login World0.

(** The script on an empty universe. *)
Definition empty_run : outcome unit * World DailyInterval :=
  script in_daily demo_hist (const_rsi 55) (demo_excel []) "/opt/screener"
    quiet_feed in_order demo_login World0.

Definition feed (id : nat) (symbol : Symbol) : Seis DailyInterval :=
  {| seis_id := id; seis_symbol := symbol; seis_exchange := "NSE";
     seis_interval := in_daily |}.

(** Two workers on three symbols. *)
Definition two_workers : list Pool.event :=
  [Pool.Start; Pool.Start; Pool.Finish "TCS"; Pool.Start; Pool.Finish "INFY";
   Pool.Finish "RELIANCE"].

(** [scenario_frame] with the close of its 101st bar missing. *)
Definition gap_frame : DataFrame :=
  firstn 100 scenario_frame
  ++ [{| open := Fin 97; high := Fin 97; low := Fin 97; close := NaN;
         volume := Fin 1500000 |}]
  ++ skipn 101 scenario_frame.

Definition gap_hist (symbol : Symbol) (exchange : string)
    (interval : DailyInterval) (n_bars : nat) : response (option DataFrame) :=
  Returns (Some gap_frame).

(** A feed that cannot attach the consumer of RELIANCE. *)
Definition deaf_feed (c : tv_call DailyInterval) : option exn :=
  match c with
  | new_consumer seis =>
      if String.eqb (seis_symbol seis) "RELIANCE" then Some "AttachError" else None
  | _ => None
  end.

(** *** The same universe in doubles *)

(** Stand-ins for the two means of pandas: a sum from the oldest bar to the
    latest, divided by the count.  On the frames below every sum is a whole
    number below 2^53, so no rounding takes place before the division. *)
Definition fsum (xs : list float) : float :=
  fold_left PrimFloat.add xs 0%float.
Definition fcount (xs : list float) : float :=
  fold_left (fun n _ => (n + 1)%float) xs 0%float.
Definition demo_rolling_mean (w : nat) (xs : list float) : float :=
  if (w =? 0) || (length xs <? w) then PrimFloat.nan
  else (fsum (recent w xs) / fcount (recent w xs))%float.
Definition demo_mean (xs : list float) : float :=
  let vs := filter (fun x => PrimFloat.eqb x x) xs in
  (fsum vs / fcount vs)%float.

Definition demo_doubles : Arith := binary64 demo_rolling_mean demo_mean.

Definition flat64 (price vol : float) : bar float :=
  {| open := price; high := price; low := price; close := price; volume := vol |}.

(** [scenario_frame] in doubles. *)
Definition scenario_frame64 : list (bar float) :=
  repeat (flat64 90 1500000) 50 ++ repeat (flat64 97 1500000) 100
  ++ repeat (flat64 98 1500000) 50 ++ repeat (flat64 100 1500000) 48
  ++ [flat64 95 1000000;
      {| open := 100%float; high := 105.1%float; low := 99%float;
         close := 105%float; volume := 2000000%float |}].

Definition short_frame64 : list (bar float) := skipn 130 scenario_frame64.

Definition flat_frame64 : list (bar float) := repeat (flat64 100 1500000) 200.

(** 200 bars that end on a close of 299.7 under a high of 300: the double
    nearest to 300 * 0.999 is the double nearest to 299.7. *)
Definition boundary_frame64 : list (bar float) :=
  repeat (flat64 100 1500000) 199
  ++ [{| open := 299%float; high := 300%float; low := 299%float;
         close := 299.7%float; volume := 2000000%float |}].

Definition demo_hist64 (symbol : Symbol) (exchange : string)
    (interval : DailyInterval) (n_bars : nat)
  : response (option (list (bar float))) :=
  if String.eqb symbol "RELIANCE" then Returns (Some scenario_frame64)
  else if String.eqb symbol "TCS" then Returns (Some flat_frame64)
  else if String.eqb symbol "NEWIPO" then Returns (Some short_frame64)
  else if String.eqb symbol "BOUNDARY" then Returns (Some boundary_frame64)
  else Returns None.

Definition const_rsi64 (v : float) (closes : list float) (window : nat)
  : response (list float) :=
  Returns (map (fun _ => v) closes).

Definition scenario_snapshot (rsi : float) : Snapshot float :=
  {| current_close := 105; short_ma := 100; long_ma := 98; day_high := 105.1;
     momentum := rsi; current_volume := 2000000; mean_volume := 1500000 |}%float.

(** * Properties *)

Lemma Qlt_bool_iff (x y : Q) : Qlt_bool x y = true <-> (x < y)%Q.
Proof.
  unfold Qlt_bool. rewrite negb_true_iff, <- not_true_iff_false, Qle_bool_iff.
  split; [apply Qnot_le_lt | apply Qlt_not_le].
Qed.

(** ** Computations that only log *)

Section Logging.

Context {Interval : Type}.
Implicit Types (w : World Interval) (l : list LogRecord).

Lemma emit_nil w : emit [] w = w.
Proof. destruct w; unfold emit; simpl. now rewrite app_nil_r. Qed.

Lemma emit_app l l' w : emit l' (emit l w) = emit (l ++ l') w.
Proof. unfold emit; simpl. now rewrite app_assoc. Qed.

Lemma logs_only_ret {A} (a : A) : logs_only (Interval := Interval) (ret a) (Ok a) [].
Proof. intros w. unfold ret. now rewrite emit_nil. Qed.

Lemma logs_only_call {A} (a : A) :
  logs_only (Interval := Interval) (call (Returns a)) (Ok a) [].
Proof. intros w. unfold call. now rewrite emit_nil. Qed.

Lemma logs_only_call_raise {A} (e : exn) :
  logs_only (Interval := Interval) (call (A := A) (Raises e)) (Raise e) [].
Proof. intros w. unfold call. now rewrite emit_nil. Qed.

Lemma logs_only_logger lv msg :
  logs_only (Interval := Interval) (logger lv msg) (Ok tt) [(lv, msg)].
Proof. intros w. reflexivity. Qed.

Lemma logs_only_bind {A B} (m : M Interval A) (k : A -> M Interval B) a l r l' :
  logs_only m (Ok a) l -> logs_only (k a) r l' -> logs_only (bind m k) r (l ++ l').
Proof. intros Hm Hk w. unfold bind. now rewrite Hm, Hk, emit_app. Qed.

Lemma logs_only_bind_raise {A B} (m : M Interval A) (k : A -> M Interval B) e l :
  logs_only m (Raise e) l -> logs_only (bind m k) (Raise e) l.
Proof. intros Hm w. unfold bind. now rewrite Hm. Qed.

Lemma logs_only_bind_exit {A B} (m : M Interval A) (k : A -> M Interval B) n l :
  logs_only m (SystemExit n) l -> logs_only (bind m k) (SystemExit n) l.
Proof. intros Hm w. unfold bind. now rewrite Hm. Qed.

Lemma logs_only_try {A} (m : M Interval A) h e l r l' :
  logs_only m (Raise e) l -> logs_only (h e) r l' ->
  logs_only (try_except m h) r (l ++ l').
Proof. intros Hm Hh w. unfold try_except. now rewrite Hm, Hh, emit_app. Qed.

Lemma logs_only_try_ok {A} (m : M Interval A) h a l :
  logs_only m (Ok a) l -> logs_only (try_except m h) (Ok a) l.
Proof. intros Hm w. unfold try_except. now rewrite Hm. Qed.

Lemma logs_only_try_exit {A} (m : M Interval A) h n l :
  logs_only m (SystemExit n) l -> logs_only (try_except m h) (SystemExit n) l.
Proof. intros Hm w. unfold try_except. now rewrite Hm. Qed.

(** The outcome and the records of such a computation are those of its run
    from the initial world. *)
Lemma logs_only_run {A} (m : M Interval A) r l :
  logs_only m r l -> forall w, m w = (fst (m World0), emit (log (snd (m World0))) w).
Proof. intros Hm w. now rewrite (Hm w), (Hm World0). Qed.

Lemma logs_only_fun {A} (m : M Interval A) r l r' l' :
  logs_only m r l -> logs_only m r' l' -> r = r' /\ l = l'.
Proof.
  intros H H'. specialize (H World0). rewrite (H' World0) in H.
  inversion H. now split.
Qed.

End Logging.

(** ** Series *)

Lemma iloc_last_app {A} (xs : list A) (x : A) : iloc_last (xs ++ [x]) = Returns x.
Proof.
  induction xs as [|a xs IH]; [reflexivity|].
  change (iloc_last ((a :: xs) ++ [x]))
    with (match xs ++ [x] with [] => Returns a | _ :: _ => iloc_last (xs ++ [x]) end).
  destruct (xs ++ [x]) eqn:E; [now destruct xs | exact IH].
Qed.

Lemma iloc_last_last {A} (xs : list A) (d : A) :
  xs <> [] -> iloc_last xs = Returns (last xs d).
Proof.
  intros Hne. destruct (exists_last Hne) as (xs' & x & ->).
  now rewrite iloc_last_app, last_last.
Qed.

Lemma iloc_last_map {A B} (f : A -> B) (xs : list A) (x : A) :
  iloc_last xs = Returns x -> iloc_last (map f xs) = Returns (f x).
Proof.
  destruct xs as [|a xs'] using rev_ind; [discriminate|].
  rewrite iloc_last_app, map_app. simpl. rewrite iloc_last_app. congruence.
Qed.

(** The latest entry of the rolling column is the latest rolling mean of
    the whole series. *)
Lemma iloc_last_rolling_mean `{arith : Arith} (w : nat) (xs : list num) :
  xs <> [] -> iloc_last (rolling_mean w xs) = Returns (window_mean w xs).
Proof.
  intros Hne. unfold rolling_mean.
  destruct (length xs) as [|n] eqn:Hlen; [now destruct xs|].
  rewrite seq_S, map_app. cbn [map Nat.add]. rewrite iloc_last_app.
  now rewrite <- Hlen, firstn_all.
Qed.

Lemma rolling_mean_length `{arith : Arith} (w : nat) (xs : list num) :
  length (rolling_mean w xs) = length xs.
Proof. unfold rolling_mean. now rewrite length_map, length_seq. Qed.

(** ** Comparisons in exact arithmetic *)

Lemma gt_true_iff (a b : num) :
  gt a b = true <-> exists x y, a = Fin x /\ b = Fin y /\ (y < x)%Q.
Proof.
  unfold gt, Fin. split.
  - destruct a as [x|], b as [y|]; try discriminate.
    intros H. exists x, y. now rewrite <- Qlt_bool_iff.
  - intros (x & y & -> & -> & H). now apply Qlt_bool_iff.
Qed.

Lemma lt_true_iff (a b : num) :
  lt a b = true <-> exists x y, a = Fin x /\ b = Fin y /\ (x < y)%Q.
Proof.
  unfold lt, Fin. split.
  - destruct a as [x|], b as [y|]; try discriminate.
    intros H. exists x, y. now rewrite <- Qlt_bool_iff.
  - intros (x & y & -> & -> & H). now apply Qlt_bool_iff.
Qed.

Lemma ge_true_iff (a b : num) :
  ge a b = true <-> exists x y, a = Fin x /\ b = Fin y /\ (y <= x)%Q.
Proof.
  unfold ge, Fin. split.
  - destruct a as [x|], b as [y|]; try discriminate.
    intros H. exists x, y. now rewrite <- Qle_bool_iff.
  - intros (x & y & -> & -> & H). now apply Qle_bool_iff.
Qed.

(** The test of line 98 holds exactly when its seven inputs are numbers
    that meet the five conditions. *)
Lemma criteria_true_iff (cp d50 d200 dh r av cv : num) :
  criteria cp d50 d200 dh r av cv = true <->
  exists s : Snapshot Q,
    cp = Fin (current_close s) /\ d50 = Fin (short_ma s) /\
    d200 = Fin (long_ma s) /\ dh = Fin (day_high s) /\ r = Fin (momentum s) /\
    cv = Fin (current_volume s) /\ av = Fin (mean_volume s) /\
    five_conditions s.
Proof.
  unfold criteria. rewrite !andb_true_iff, !gt_true_iff, ge_true_iff, lt_true_iff.
  unfold five_conditions, Fin. split.
  - intros ((((( x1 & y1 & -> & -> & H1) & (x2 & y2 & E2 & -> & H2))
              & (x3 & y3 & E3 & E3' & H3)) & (x4 & y4 & -> & E4 & H4))
              & (x5 & y5 & -> & -> & H5)).
    destruct dh as [h|]; [|discriminate].
    injection E2 as <-. injection E3 as <-. injection E3' as <-. injection E4 as <-.
    exists {| current_close := x1; short_ma := y1; long_ma := y2; day_high := h;
              momentum := x4; current_volume := x5; mean_volume := y5 |}.
    simpl. rewrite (Qmult_comm 0.999 h). repeat split; assumption.
  - intros (s & -> & -> & -> & -> & -> & -> & -> & H1 & H2 & H3 & H4 & H5).
    repeat split; try (eexists; eexists; repeat split; eassumption).
    eexists; eexists; repeat split. simpl. now rewrite Qmult_comm.
Qed.

(** ** One unit of work *)

Section Screening.

Context `{arith : Arith}.
Context {Interval : Type} (INTERVAL : Interval).
Context (get_hist : Symbol -> string -> Interval -> nat -> response (option DataFrame)).
Context (RSIIndicator : list num -> nat -> response (list num)).

Local Abbreviation screen := (screen_stock get_hist RSIIndicator).
Local Abbreviation fetch := (fetch_historical_data get_hist).

Lemma fetch_raise symbol exchange interval n_bars e :
  get_hist symbol exchange interval n_bars = Raises e ->
  logs_only (fetch symbol exchange interval n_bars) (Ok None)
    [(ERROR, fstr ["Error fetching data for "; symbol; ": "; e])].
Proof.
  intros H w. unfold fetch_historical_data, try_except, bind, call.
  now rewrite H.
Qed.

Lemma fetch_no_data symbol exchange interval n_bars :
  get_hist symbol exchange interval n_bars = Returns None \/
  get_hist symbol exchange interval n_bars = Returns (Some []) ->
  logs_only (fetch symbol exchange interval n_bars) (Ok None)
    [(WARNING, fstr ["No data available for symbol: "; symbol])].
Proof.
  intros [H|H] w; unfold fetch_historical_data, try_except, bind, call;
    now rewrite H.
Qed.

Lemma fetch_frame symbol exchange interval n_bars df :
  get_hist symbol exchange interval n_bars = Returns (Some df) -> df <> [] ->
  logs_only (fetch symbol exchange interval n_bars) (Ok (Some df)) [].
Proof.
  intros H Hne w. unfold fetch_historical_data, try_except, bind, call.
  rewrite H. destruct df; [congruence|]. unfold ret. now rewrite emit_nil.
Qed.

Lemma screen_raise symbol e :
  get_hist symbol "NSE" INTERVAL N_BARS = Raises e ->
  logs_only (screen symbol INTERVAL N_BARS) (Ok None)
    [(INFO, fstr ["Screening stock: "; symbol]);
     (ERROR, fstr ["Error fetching data for "; symbol; ": "; e])].
Proof.
  intros H. unfold screen_stock.
  eapply (logs_only_bind _ _ tt [_]); [apply logs_only_logger|].
  eapply (logs_only_bind _ _ _ [_] _ []);
    [apply (fetch_raise _ _ _ _ _ H) | apply logs_only_ret].
Qed.

Lemma screen_no_data symbol :
  get_hist symbol "NSE" INTERVAL N_BARS = Returns None \/
  get_hist symbol "NSE" INTERVAL N_BARS = Returns (Some []) ->
  logs_only (screen symbol INTERVAL N_BARS) (Ok None)
    [(INFO, fstr ["Screening stock: "; symbol]);
     (WARNING, fstr ["No data available for symbol: "; symbol])].
Proof.
  intros H. unfold screen_stock.
  eapply (logs_only_bind _ _ tt [_]); [apply logs_only_logger|].
  eapply (logs_only_bind _ _ _ [_] _ []);
    [apply (fetch_no_data _ _ _ _ H) | apply logs_only_ret].
Qed.

Lemma screen_short symbol df :
  get_hist symbol "NSE" INTERVAL N_BARS = Returns (Some df) ->
  df <> [] -> length df < 200 ->
  logs_only (screen symbol INTERVAL N_BARS) (Ok None)
    [(INFO, fstr ["Screening stock: "; symbol])].
Proof.
  intros H Hne Hlen. unfold screen_stock.
  eapply (logs_only_bind _ _ tt [_] _ []); [apply logs_only_logger|].
  eapply (logs_only_bind _ _ _ [] _ []); [apply (fetch_frame _ _ _ _ _ H Hne)|].
  cbv beta iota.
  destruct (Nat.leb_spec 200 (length df)); [lia|]. apply logs_only_ret.
Qed.

Lemma screen_unavailable symbol :
  unavailable INTERVAL get_hist symbol ->
  exists l, logs_only (screen symbol INTERVAL N_BARS) (Ok None)
              ((INFO, fstr ["Screening stock: "; symbol]) :: l).
Proof.
  intros [(e & H)|[H|(df & H & Hlen)]].
  - eexists. apply (screen_raise _ _ H).
  - eexists. apply screen_no_data. now left.
  - destruct df as [|b df'].
    + eexists. apply screen_no_data. now right.
    + eexists. now apply (screen_short _ _ H).
Qed.

(** On a frame of at least 200 bars the unit reads the momentum column and
    applies the test of line 98 to the latest bar. *)
Lemma screen_long symbol df w :
  get_hist symbol "NSE" INTERVAL N_BARS = Returns (Some df) -> 200 <= length df ->
  screen symbol INTERVAL N_BARS w =
  (rsi <- call (RSIIndicator (map close df) 14) ;;
   r <- call (iloc_last rsi) ;;
   if criteria (last (map close df) NaN) (window_mean 50 (map close df))
               (window_mean 200 (map close df)) (last (map high df) NaN) r
               (series_mean (map volume df)) (last (map volume df) NaN)
   then logger CRITICAL (fstr ["Stock "; symbol; " meets the criteria"]) ;;;
        ret (Some symbol)
   else ret None)
  (emit [(INFO, fstr ["Screening stock: "; symbol])] w).
Proof.
  intros H Hlen.
  assert (Hne : df <> []) by (destruct df; [simpl in Hlen; lia | discriminate]).
  assert (Hmap : forall f : bar num -> num, map f df <> []).
  { intros f E. apply map_eq_nil in E. contradiction. }
  unfold screen_stock, bind at 1 2.
  rewrite (logs_only_logger _ _ w), (fetch_frame _ _ _ _ _ H Hne), emit_nil.
  destruct (Nat.leb_spec 200 (length df)); [|lia].
  unfold calculate_indicators, bind, call, ret.
  destruct (RSIIndicator (map close df) 14) as [rsi|e]; try reflexivity.
  cbn [bars DMA50 DMA200 RSI].
  rewrite !iloc_last_rolling_mean by apply Hmap.
  rewrite (iloc_last_last (map close df) NaN), (iloc_last_last (map high df) NaN),
    (iloc_last_last (map volume df) NaN) by apply Hmap.
  destruct (iloc_last rsi); reflexivity.
Qed.

(** Every way a unit can end, with the records it leaves. *)
Lemma screen_cases symbol :
  exists r l,
    logs_only (screen symbol INTERVAL N_BARS) r
      ((INFO, fstr ["Screening stock: "; symbol]) :: l) /\
    ((r = Ok (Some symbol) /\
      l = [(CRITICAL, fstr ["Stock "; symbol; " meets the criteria"])]) \/
     (r = Ok None /\ Forall (fun rec => fst rec = WARNING \/ fst rec = ERROR) l) \/
     (exists e, r = Raise e /\ l = [])).
Proof.
  destruct (get_hist symbol "NSE" INTERVAL N_BARS) as [[df|]|e] eqn:H.
  - destruct (Nat.le_gt_cases 200 (length df)) as [Hlen|Hlen].
    + pose proof (fun w => screen_long symbol df w H Hlen) as E.
      unfold bind, call, ret, logger in E.
      destruct (RSIIndicator (map close df) 14) as [rsi|e].
      * destruct (iloc_last rsi) as [m|e].
        -- destruct (criteria _ _ _ _ m _ _).
           ++ exists (Ok (Some symbol)), [(CRITICAL, fstr ["Stock "; symbol; " meets the criteria"])].
              split; [|now left]. intros w. rewrite E. unfold emit; simpl.
              now rewrite <- app_assoc.
           ++ exists (Ok None), []. split; [|right; left; now split].
              intros w. now rewrite E.
        -- exists (Raise e), []. split; [|right; right; now exists e].
           intros w. now rewrite E.
      * exists (Raise e), []. split; [|right; right; now exists e].
        intros w. now rewrite E.
    + destruct df as [|b df'].
      * eexists _, [_]. split; [apply screen_no_data; now right|].
        right; left. split; [reflexivity | repeat constructor; now left].
      * eexists _, []. split; [now apply (screen_short _ _ H)|].
        right; left. split; [reflexivity | constructor].
  - eexists _, [_]. split; [apply screen_no_data; now left|].
    right; left. split; [reflexivity | repeat constructor; now left].
  - eexists _, [_]. split; [apply (screen_raise _ _ H)|].
    right; left. split; [reflexivity | repeat constructor; now right].
Qed.

(** The outcome of a unit does not depend on the state of the script. *)
Lemma screen_world symbol w :
  screen symbol INTERVAL N_BARS w =
  (fst (screen symbol INTERVAL N_BARS World0),
   emit (log (snd (screen symbol INTERVAL N_BARS World0))) w).
Proof.
  destruct (screen_cases symbol) as (r & l & Hl & _).
  apply (logs_only_run _ _ _ Hl).
Qed.

End Screening.

(** ** The batch *)

Section Batch.

Context `{arith : Arith}.
Context {Interval : Type} (INTERVAL : Interval).
Context (get_hist : Symbol -> string -> Interval -> nat -> response (option DataFrame)).
Context (RSIIndicator : list num -> nat -> response (list num)).

Local Abbreviation screen := (screen_stock get_hist RSIIndicator).
Local Abbreviation selected' := (selected INTERVAL get_hist RSIIndicator).
Local Abbreviation records' := (records INTERVAL get_hist RSIIndicator).
Local Abbreviation collect' := (collect INTERVAL get_hist RSIIndicator).
Local Abbreviation main_screen' := (main_screen INTERVAL get_hist RSIIndicator).

Lemma selected_of symbol r l :
  logs_only (screen symbol INTERVAL N_BARS) r l ->
  selected' symbol = match r with Ok r => truthy r | _ => false end.
Proof. intros Hl. unfold selected. now rewrite (Hl World0). Qed.

Lemma collect_cases symbol :
  exists l, forall acc,
    logs_only (collect' symbol acc)
      (Ok (if selected' symbol then acc ++ [symbol] else acc))
      ((INFO, fstr ["Screening stock: "; symbol]) :: l).
Proof.
  destruct (screen_cases INTERVAL get_hist RSIIndicator symbol)
    as (r & l & Hl & [(-> & _)|[(-> & _)|(e & -> & ->)]]);
    rewrite (selected_of _ _ _ Hl).
  - exists (l ++ []). intros acc. unfold collect.
    apply logs_only_try_ok. apply (logs_only_bind _ _ _ _ _ _ Hl).
    cbv beta iota. destruct (truthy (Some symbol)); apply logs_only_ret.
  - exists (l ++ []). intros acc. unfold collect.
    apply logs_only_try_ok. apply (logs_only_bind _ _ _ _ _ _ Hl).
    apply logs_only_ret.
  - exists ([(ERROR, fstr ["Error screening stock: "; e])] ++ []).
    intros acc. unfold collect.
    apply (logs_only_try _ _ _ _ _ _ (logs_only_bind_raise _ _ _ _ Hl)).
    apply (logs_only_bind _ _ tt _ _ _ (logs_only_logger _ _)), logs_only_ret.
Qed.

(** Every future that is collected has run its unit. *)
Lemma records_screening symbol :
  In (INFO, fstr ["Screening stock: "; symbol]) (records' symbol).
Proof.
  destruct (collect_cases symbol) as (l & Hl).
  unfold records. rewrite (Hl [] World0). now left.
Qed.

(** A future hands its symbol to the pass list when the unit selects it,
    and leaves its records in the log; nothing else changes. *)
Lemma collect_run symbol acc :
  logs_only (collect' symbol acc)
    (Ok (if selected' symbol then acc ++ [symbol] else acc)) (records' symbol).
Proof.
  destruct (collect_cases symbol) as (l & Hl).
  unfold records. now rewrite (Hl [] World0).
Qed.

(** The batch always runs to its end: it returns the symbols selected, in
    completion order, after the records of every unit. *)
Lemma main_screen_run completed : forall acc,
  logs_only (main_screen' completed acc)
    (Ok (acc ++ filter selected' completed)) (flat_map records' completed).
Proof.
  induction completed as [|symbol rest IH]; intros acc; simpl.
  - rewrite app_nil_r. apply logs_only_ret.
  - eapply logs_only_bind; [apply collect_run|].
    destruct (selected' symbol).
    + replace (acc ++ symbol :: filter selected' rest)
        with ((acc ++ [symbol]) ++ filter selected' rest)
        by now rewrite <- app_assoc.
      apply IH.
    + apply IH.
Qed.

End Batch.

(** ** The screening rule *)

Section Rule.

(** The two means as pandas computes them. *)
Variable pandas_rolling_mean : nat -> list float -> float.
Variable pandas_mean : list float -> float.

Local Abbreviation doubles := (binary64 pandas_rolling_mean pandas_mean).

Context {Interval : Type} (INTERVAL : Interval).
Context (get_hist : Symbol -> string -> Interval -> nat
                    -> response (option (list (bar float)))).
Context (RSIIndicator : list float -> nat -> response (list float)).

Local Abbreviation screen := (screen_stock (arith := doubles) get_hist RSIIndicator).

(** The test of line 98 on doubles is the conjunction of its five IEEE
    comparisons. *)
Lemma criteria_binary64 (s : Snapshot float) :
  criteria (arith := doubles) (current_close s) (short_ma s) (long_ma s) (day_high s)
    (momentum s) (mean_volume s) (current_volume s) = true
  <-> five_conditions_binary64 s.
Proof.
  unfold criteria, five_conditions_binary64. cbn [gt ge lt mul c_0_999 c_70 binary64].
  rewrite !andb_true_iff. tauto.
Qed.

(** On a frame of at least 200 bars whose momentum column can be read, the
    unit returns the symbol when the test of line 98 holds of what it read
    and [None] when it does not. *)
Lemma screen_snapshot symbol df w s :
  get_hist symbol "NSE" INTERVAL N_BARS = Returns (Some df) -> 200 <= length df ->
  snapshot_of pandas_rolling_mean pandas_mean RSIIndicator df s ->
  fst (screen symbol INTERVAL N_BARS w) =
  if criteria (arith := doubles) (current_close s) (short_ma s) (long_ma s)
       (day_high s) (momentum s) (mean_volume s) (current_volume s)
  then Ok (Some symbol) else Ok None.
Proof.
  intros H Hlen (Hc & H50 & H200 & Hh & (rsi & Hrsi & Hm) & Hv & Hav).
  assert (Hmap : forall f : bar float -> float, map f df <> []).
  { intros f E. apply map_eq_nil in E. subst df. simpl in Hlen. lia. }
  rewrite (iloc_last_last _ PrimFloat.nan (Hmap _)) in Hc.
  rewrite (iloc_last_last _ PrimFloat.nan (Hmap _)) in Hh.
  rewrite (iloc_last_last _ PrimFloat.nan (Hmap _)) in Hv.
  injection Hc as Hc. injection Hh as Hh. injection Hv as Hv.
  rewrite (screen_long (arith := doubles) INTERVAL get_hist RSIIndicator symbol df w H Hlen).
  unfold bind, call. cbn [num NaN window_mean series_mean binary64].
  rewrite Hrsi, Hm, Hc, H50, H200, Hh, Hv, Hav.
  now destruct (criteria (arith := doubles) _ _ _ _ _ _ _).
Qed.

(** C1: on a series of at least 200 bars the unit returns its symbol (Pass)
    exactly when the momentum column can be read and the five conditions
    hold, in double precision, of the latest close, the latest entries of
    the 50- and 200-bar rolling means, the latest high, the latest momentum
    value, the latest volume and the mean volume; the scenario with momentum
    55 passes and the one with momentum 75 does not. *)
Theorem screen_stock_pass_iff symbol df w :
  get_hist symbol "NSE" INTERVAL N_BARS = Returns (Some df) -> 200 <= length df ->
  (fst (screen_stock (arith := binary64 pandas_rolling_mean pandas_mean)
          get_hist RSIIndicator symbol INTERVAL N_BARS w) = Ok (Some symbol) <->
   exists s, snapshot_of pandas_rolling_mean pandas_mean RSIIndicator df s /\
             five_conditions_binary64 s) /\
  (forall s, snapshot_of pandas_rolling_mean pandas_mean RSIIndicator df s ->
     scenario 55 s ->
     fst (screen_stock (arith := binary64 pandas_rolling_mean pandas_mean)
            get_hist RSIIndicator symbol INTERVAL N_BARS w) = Ok (Some symbol)) /\
  (forall s, snapshot_of pandas_rolling_mean pandas_mean RSIIndicator df s ->
     scenario 75 s ->
     fst (screen_stock (arith := binary64 pandas_rolling_mean pandas_mean)
            get_hist RSIIndicator symbol INTERVAL N_BARS w) = Ok None).
Proof.
  intros H Hlen.
  assert (Hmap : forall f : bar float -> float, map f df <> []).
  { intros f E. apply map_eq_nil in E. subst df. simpl in Hlen. lia. }
  assert (Hback : forall s,
            snapshot_of pandas_rolling_mean pandas_mean RSIIndicator df s ->
            five_conditions_binary64 s ->
            fst (screen symbol INTERVAL N_BARS w) = Ok (Some symbol)).
  { intros s Hs Hfive. rewrite (screen_snapshot symbol df w s H Hlen Hs).
    now rewrite (proj2 (criteria_binary64 s) Hfive). }
  split; [split|split].
  - rewrite (screen_long (arith := doubles) INTERVAL get_hist RSIIndicator symbol df w H Hlen).
    unfold bind, call, ret, logger. cbn [num NaN window_mean series_mean binary64].
    destruct (RSIIndicator (map close df) 14) as [rsi|e] eqn:Hrsi; [|discriminate].
    destruct (iloc_last rsi) as [m|e] eqn:Hm; [|discriminate].
    destruct (criteria (arith := doubles) _ _ _ _ m _ _) eqn:C; [|discriminate]. intros _.
    exists {| current_close := last (map close df) PrimFloat.nan;
              short_ma := pandas_rolling_mean 50 (map close df);
              long_ma := pandas_rolling_mean 200 (map close df);
              day_high := last (map high df) PrimFloat.nan;
              momentum := m;
              current_volume := last (map volume df) PrimFloat.nan;
              mean_volume := pandas_mean (map volume df) |}.
    split; [|apply criteria_binary64; exact C].
    unfold snapshot_of. cbn [current_close short_ma long_ma day_high momentum
                             current_volume mean_volume].
    rewrite !(iloc_last_last _ PrimFloat.nan (Hmap _)).
    repeat (split; [reflexivity|]). split; [now exists rsi|]. now split.
  - intros (s & Hs & Hfive). now apply (Hback s).
  - intros s Hs Hsc. apply (Hback s Hs).
    destruct s as [c m50 m200 h r v mv]. unfold scenario in Hsc.
    cbn [current_close short_ma long_ma day_high momentum current_volume
         mean_volume] in Hsc.
    destruct Hsc as (-> & -> & -> & -> & -> & -> & ->).
    repeat split; reflexivity.
  - intros s Hs Hsc. rewrite (screen_snapshot symbol df w s H Hlen Hs).
    destruct (criteria (arith := doubles) _ _ _ _ _ _ _) eqn:C; [|reflexivity].
    apply criteria_binary64 in C. destruct C as (_ & _ & _ & C & _).
    destruct Hsc as (_ & _ & _ & _ & Hr & _). rewrite Hr in C.
    vm_compute in C. discriminate.
Qed.

(** C2, as the code has it: a symbol whose data is unavailable or shorter
    than 200 bars makes the unit return [None], never its symbol, and the
    batch leaves it out of the pass list whenever and however often its unit
    completes; that [None] is also what a symbol with 200 bars or more that
    does not meet the five conditions returns, so the two are not told
    apart. *)
Theorem unavailable_returns_None symbol w :
  unavailable (arith := binary64 pandas_rolling_mean pandas_mean) INTERVAL get_hist symbol ->
  fst (screen_stock (arith := binary64 pandas_rolling_mean pandas_mean)
         get_hist RSIIndicator symbol INTERVAL N_BARS w) = Ok None /\
  selected (arith := binary64 pandas_rolling_mean pandas_mean)
    INTERVAL get_hist RSIIndicator symbol = false /\
  (forall completed selected_stocks w0, exists passed w',
     main_screen (arith := binary64 pandas_rolling_mean pandas_mean)
       INTERVAL get_hist RSIIndicator completed selected_stocks w0
     = (Ok passed, w') /\
     count_occ string_dec passed symbol = count_occ string_dec selected_stocks symbol) /\
  (forall symbol' df s w',
     get_hist symbol' "NSE" INTERVAL N_BARS = Returns (Some df) ->
     200 <= length df ->
     snapshot_of pandas_rolling_mean pandas_mean RSIIndicator df s ->
     ~ five_conditions_binary64 s ->
     fst (screen_stock (arith := binary64 pandas_rolling_mean pandas_mean)
            get_hist RSIIndicator symbol' INTERVAL N_BARS w')
     = fst (screen_stock (arith := binary64 pandas_rolling_mean pandas_mean)
              get_hist RSIIndicator symbol INTERVAL N_BARS w)).
Proof.
  intros Hun.
  destruct (screen_unavailable (arith := doubles) INTERVAL get_hist RSIIndicator symbol Hun)
    as (l & Hl).
  assert (E : fst (screen symbol INTERVAL N_BARS w) = Ok None) by now rewrite (Hl w).
  assert (Hsel : selected (arith := doubles) INTERVAL get_hist RSIIndicator symbol = false).
  { unfold selected. now rewrite (Hl World0). }
  split; [exact E|]. split; [exact Hsel|]. split.
  - intros completed selected_stocks w0. eexists _, _.
    split; [apply (main_screen_run (arith := doubles))|].
    rewrite count_occ_app.
    replace (count_occ string_dec (filter _ completed) symbol) with 0;
      [apply Nat.add_0_r|].
    symmetry. apply count_occ_not_In. intros Hin. apply filter_In in Hin.
    destruct Hin as [_ Hin]. congruence.
  - intros symbol' df s w' H Hlen Hs Hn. rewrite E.
    rewrite (screen_snapshot symbol' df w' s H Hlen Hs).
    destruct (criteria (arith := doubles) _ _ _ _ _ _ _) eqn:C; [|reflexivity].
    exfalso. apply Hn. now apply criteria_binary64.
Qed.

End Rule.

(** ** Completion orders of the pool *)

Lemma remove_one_perm (s : Symbol) (l : list Symbol) :
  existsb (String.eqb s) l = true -> Permutation l (s :: Pool.remove_one s l).
Proof.
  induction l as [|x l IH]; simpl; [discriminate|].
  rewrite (String.eqb_sym s x).
  destruct (String.eqb_spec x s) as [->|Hne]; simpl; [reflexivity|].
  intros H. rewrite (IH H) at 1. apply perm_swap.
Qed.

(** A step moves units along; it neither loses nor invents one. *)
Lemma step_perm (k : nat) (st st' : Pool.state) (ev : Pool.event) :
  Pool.step k st ev = Some st' ->
  Permutation (Pool.pending st' ++ Pool.in_flight st' ++ Pool.completed st')
              (Pool.pending st ++ Pool.in_flight st ++ Pool.completed st).
Proof.
  destruct ev as [|s|]; simpl.
  - destruct (Pool.pending st) as [|s rest]; [discriminate|].
    destruct (length (Pool.in_flight st) <? k); [|discriminate].
    intros [= <-]. simpl. rewrite <- app_assoc. symmetry.
    rewrite 2(app_assoc rest (Pool.in_flight st)). apply Permutation_middle.
  - destruct (existsb (String.eqb s) (Pool.in_flight st)) eqn:E; [|discriminate].
    intros [= <-]. simpl. apply Permutation_app_head.
    rewrite (remove_one_perm s _ E) at 2. simpl.
    rewrite app_assoc. symmetry. apply Permutation_cons_append.
  - intros [= <-]. reflexivity.
Qed.

Lemma run_perm (k : nat) (evs : list Pool.event) : forall st st',
  Pool.run k st evs = Some st' ->
  Permutation (Pool.pending st' ++ Pool.in_flight st' ++ Pool.completed st')
              (Pool.pending st ++ Pool.in_flight st ++ Pool.completed st).
Proof.
  induction evs as [|ev evs IH]; simpl; intros st st'.
  - now intros [= <-].
  - destruct (Pool.step k st ev) as [st1|] eqn:E; [|discriminate].
    intros H. rewrite (IH _ _ H). now apply (step_perm k st st1 ev).
Qed.

(** Once the pool has drained, what it completed is the submitted list in
    some order, whatever the number of workers. *)
Lemma drained_perm (k : nat) (stock_symbols : list Symbol) evs st :
  Pool.run k (Pool.submit_all stock_symbols) evs = Some st -> Pool.drained st ->
  Permutation (Pool.completed st) stock_symbols.
Proof.
  intros Hrun [Hp Hf]. apply run_perm in Hrun.
  rewrite Hp, Hf in Hrun. simpl in Hrun. now rewrite app_nil_r in Hrun.
Qed.

(** With at least one worker the pool can always drain, for instance one
    unit at a time in submission order. *)
Lemma pool_drains_from (k : nat) (flag : bool) (l : list Symbol) : forall done,
  0 < k ->
  exists evs st,
    Pool.run k {| Pool.pending := l; Pool.in_flight := [];
                  Pool.completed := done; Pool.stop_flag := flag |} evs = Some st /\
    Pool.drained st /\ Pool.completed st = done ++ l.
Proof.
  induction l as [|s rest IH]; intros done Hk.
  - exists [], {| Pool.pending := []; Pool.in_flight := [];
                  Pool.completed := done; Pool.stop_flag := flag |}.
    rewrite app_nil_r. repeat split.
  - destruct (IH (done ++ [s]) Hk) as (evs & st & Hrun & Hdr & Hc).
    exists (Pool.Start :: Pool.Finish s :: evs), st.
    split; [|split; [exact Hdr | now rewrite Hc, <- app_assoc]].
    simpl. destruct (Nat.ltb_spec 0 k); [|lia].
    simpl. now rewrite String.eqb_refl.
Qed.

Lemma pool_can_drain (k : nat) (stock_symbols : list Symbol) :
  0 < k ->
  exists evs st,
    Pool.run k (Pool.submit_all stock_symbols) evs = Some st /\
    Pool.drained st /\ Pool.completed st = stock_symbols.
Proof. intros Hk. apply (pool_drains_from k false stock_symbols [] Hk). Qed.

(** ** The pass list *)

Section PassList.

Context `{arith : Arith}.
Context {Interval : Type} (INTERVAL : Interval).
Context (get_hist : Symbol -> string -> Interval -> nat -> response (option DataFrame)).
Context (RSIIndicator : list num -> nat -> response (list num)).

Local Abbreviation screen := (screen_stock get_hist RSIIndicator).
Local Abbreviation selected' := (selected INTERVAL get_hist RSIIndicator).
Local Abbreviation main_screen' := (main_screen INTERVAL get_hist RSIIndicator).

Lemma count_occ_filter_le (f : Symbol -> bool) (l : list Symbol) (s : Symbol) :
  count_occ string_dec (filter f l) s <= count_occ string_dec l s.
Proof.
  induction l as [|x l IH]; simpl; [lia|].
  destruct (f x); simpl; destruct (string_dec x s); lia.
Qed.

(** C10: every symbol of the pass list is a symbol of the universe list,
    and a unit that returns a symbol returns its own. *)
Theorem pass_list_subset stock_symbols completed w :
  Permutation completed stock_symbols ->
  exists selected_stocks w',
    main_screen' completed [] w = (Ok selected_stocks, w') /\
    (forall s, In s selected_stocks -> In s stock_symbols) /\
    (forall symbol r w0,
       fst (screen symbol INTERVAL N_BARS w0) = Ok (Some r) -> r = symbol).
Proof.
  intros Hperm. eexists _, _. split; [apply main_screen_run|]. simpl. split.
  - intros s Hin. apply filter_In in Hin.
    apply (Permutation_in _ Hperm), Hin.
  - intros symbol r w0.
    destruct (screen_cases INTERVAL get_hist RSIIndicator symbol)
      as (r0 & l & Hl & [(-> & _)|[(-> & _)|(e & -> & _)]]);
      rewrite (Hl w0); simpl; congruence.
Qed.

End PassList.

(** ** Failure isolation *)

Section Isolation.

Context `{arith : Arith}.
Context {Interval : Type} (INTERVAL : Interval).
Context (get_hist : Symbol -> string -> Interval -> nat -> response (option DataFrame)).
Context (RSIIndicator : list num -> nat -> response (list num)).

Local Abbreviation screen := (screen_stock get_hist RSIIndicator).
Local Abbreviation selected' := (selected INTERVAL get_hist RSIIndicator).
Local Abbreviation records' := (records INTERVAL get_hist RSIIndicator).
Local Abbreviation collect' := (collect INTERVAL get_hist RSIIndicator).

(** A unit asks the provider for its own symbol only. *)
Lemma screen_ext get_hist0 symbol w :
  get_hist0 symbol "NSE" INTERVAL N_BARS = get_hist symbol "NSE" INTERVAL N_BARS ->
  screen_stock get_hist0 RSIIndicator symbol INTERVAL N_BARS w
  = screen symbol INTERVAL N_BARS w.
Proof.
  intros H. unfold screen_stock, fetch_historical_data, try_except, bind, call.
  now rewrite H.
Qed.

Lemma screen_raises symbol df e :
  get_hist symbol "NSE" INTERVAL N_BARS = Returns (Some df) -> 200 <= length df ->
  (RSIIndicator (map close df) 14 = Raises e \/
   exists rsi, RSIIndicator (map close df) 14 = Returns rsi /\
               iloc_last rsi = Raises e) ->
  logs_only (screen symbol INTERVAL N_BARS) (Raise e)
    [(INFO, fstr ["Screening stock: "; symbol])].
Proof.
  intros H Hlen Hr w.
  rewrite (screen_long INTERVAL get_hist RSIIndicator symbol df w H Hlen).
  unfold bind, call.
  destruct Hr as [-> | (rsi & -> & ->)]; reflexivity.
Qed.

Lemma records_of symbol r l :
  logs_only (collect' symbol []) r l -> records' symbol = l.
Proof. intros Hl. unfold records. now rewrite (Hl World0). Qed.

(** A failing unit hands nothing to the pass list and leaves its record. *)
Lemma fails_record symbol rec :
  fails INTERVAL get_hist RSIIndicator symbol rec ->
  selected' symbol = false /\ In rec (records' symbol).
Proof.
  intros [(e & H & ->)|[(H & ->)|(df & e & H & Hlen & Hr & ->)]].
  - pose proof (screen_raise INTERVAL get_hist RSIIndicator symbol e H) as Hl.
    split; [now rewrite (selected_of _ _ _ _ _ _ Hl)|].
    erewrite records_of.
    2:{ unfold collect. apply logs_only_try_ok.
        eapply logs_only_bind; [exact Hl | apply logs_only_ret]. }
    simpl. auto.
  - pose proof (screen_no_data INTERVAL get_hist RSIIndicator symbol H) as Hl.
    split; [now rewrite (selected_of _ _ _ _ _ _ Hl)|].
    erewrite records_of.
    2:{ unfold collect. apply logs_only_try_ok.
        eapply logs_only_bind; [exact Hl | apply logs_only_ret]. }
    simpl. auto.
  - pose proof (screen_raises symbol df e H Hlen Hr) as Hl.
    split; [now rewrite (selected_of _ _ _ _ _ _ Hl)|].
    erewrite records_of.
    2:{ unfold collect. eapply logs_only_try; [apply logs_only_bind_raise; exact Hl|].
        eapply logs_only_bind; [apply logs_only_logger | apply logs_only_ret]. }
    simpl. auto.
Qed.

(** C4: when the unit of one symbol fails (the provider raises, there is no
    data, or the indicator raises), the batch still returns; the symbol is
    not in the pass list and its record is in the log; every other unit
    returns what it returns without the failure, so the pass list is the one
    of the run without the failure, less that symbol. *)
Theorem failure_isolation get_hist0 symbol rec completed w :
  fails INTERVAL get_hist RSIIndicator symbol rec ->
  (forall s exchange interval n_bars, s <> symbol ->
     get_hist0 s exchange interval n_bars = get_hist s exchange interval n_bars) ->
  exists selected_stocks w',
    main_screen INTERVAL get_hist RSIIndicator completed [] w
      = (Ok selected_stocks, w') /\
    ~ In symbol selected_stocks /\
    (In symbol completed -> In rec (log w')) /\
    (forall s w1 w2, s <> symbol ->
       fst (screen s INTERVAL N_BARS w1)
       = fst (screen_stock get_hist0 RSIIndicator s INTERVAL N_BARS w2)) /\
    (exists selected0 w0,
       main_screen INTERVAL get_hist0 RSIIndicator completed [] w
         = (Ok selected0, w0) /\
       selected_stocks = filter (fun s => negb (String.eqb s symbol)) selected0).
Proof.
  intros Hf Hext. destruct (fails_record symbol rec Hf) as [Hsel Hrec].
  eexists _, _. split; [apply main_screen_run|]. simpl.
  assert (Hs : forall s w1 w2, s <> symbol ->
            fst (screen s INTERVAL N_BARS w1)
            = fst (screen_stock get_hist0 RSIIndicator s INTERVAL N_BARS w2)).
  { intros s w1 w2 Hne.
    rewrite (screen_ext get_hist0 s w2 (Hext s _ _ _ Hne)).
    now rewrite (screen_world INTERVAL get_hist RSIIndicator s w1),
      (screen_world INTERVAL get_hist RSIIndicator s w2). }
  repeat split.
  - intros Hin. apply filter_In in Hin. destruct Hin as [_ Hin]. congruence.
  - intros Hin. apply in_or_app. right. apply in_flat_map. now exists symbol.
  - exact Hs.
  - eexists _, _. split; [apply main_screen_run|]. simpl.
    clear Hrec. induction completed as [|s rest IH]; [reflexivity|]. simpl.
    destruct (String.eqb_spec s symbol) as [->|Hne].
    + rewrite Hsel. destruct (selected _ get_hist0 _ symbol); simpl;
        [rewrite String.eqb_refl|]; exact IH.
    + assert (E : selected' s = selected INTERVAL get_hist0 RSIIndicator s).
      { unfold selected. now rewrite (Hs s World0 World0 Hne). }
      rewrite <- E. destruct (selected' s); simpl; [|exact IH].
      destruct (String.eqb_spec s symbol); [contradiction|]. simpl. now f_equal.
Qed.

End Isolation.

(** ** Determinism *)

(** C9: the verdict of a unit is a function of the series the provider
    returns for it: two units that are handed the same response reach the
    same verdict, whatever the symbols and the state of the script; screened
    again, a symbol gets the same result. *)
Theorem verdict_deterministic `{arith : Arith} {Interval : Type} (INTERVAL : Interval)
    (get_hist1 get_hist2 : Symbol -> string -> Interval -> nat -> response (option DataFrame))
    (RSIIndicator : list num -> nat -> response (list num))
    (symbol1 symbol2 : Symbol) (w1 w2 : World Interval) :
  get_hist1 symbol1 "NSE" INTERVAL N_BARS = get_hist2 symbol2 "NSE" INTERVAL N_BARS ->
  verdict_of (fst (screen_stock get_hist1 RSIIndicator symbol1 INTERVAL N_BARS w1))
  = verdict_of (fst (screen_stock get_hist2 RSIIndicator symbol2 INTERVAL N_BARS w2)) /\
  fst (screen_stock get_hist1 RSIIndicator symbol1 INTERVAL N_BARS w1)
  = fst (screen_stock get_hist1 RSIIndicator symbol1 INTERVAL N_BARS w2).
Proof.
  intros H. split.
  2:{ now rewrite (screen_world INTERVAL get_hist1 RSIIndicator symbol1 w1),
        (screen_world INTERVAL get_hist1 RSIIndicator symbol1 w2). }
  destruct (get_hist2 symbol2 "NSE" INTERVAL N_BARS) as [[df|]|e] eqn:H2.
  - destruct (Nat.le_gt_cases 200 (length df)) as [Hlen|Hlen].
    + rewrite (screen_long INTERVAL get_hist1 RSIIndicator symbol1 df w1 H Hlen),
        (screen_long INTERVAL get_hist2 RSIIndicator symbol2 df w2 H2 Hlen).
      unfold bind, call, ret, logger.
      destruct (RSIIndicator (map close df) 14) as [rsi|e]; [|reflexivity].
      destruct (iloc_last rsi) as [m|e]; [|reflexivity].
      now destruct (criteria _ _ _ _ m _ _).
    + destruct df as [|b df'].
      * now rewrite (screen_no_data INTERVAL get_hist1 RSIIndicator symbol1 (or_intror H) w1),
          (screen_no_data INTERVAL get_hist2 RSIIndicator symbol2 (or_intror H2) w2).
      * rewrite (screen_short INTERVAL get_hist1 RSIIndicator symbol1 _ H) by (discriminate || exact Hlen).
        now rewrite (screen_short INTERVAL get_hist2 RSIIndicator symbol2 _ H2) by (discriminate || exact Hlen).
  - now rewrite (screen_no_data INTERVAL get_hist1 RSIIndicator symbol1 (or_introl H) w1),
      (screen_no_data INTERVAL get_hist2 RSIIndicator symbol2 (or_introl H2) w2).
  - now rewrite (screen_raise INTERVAL get_hist1 RSIIndicator symbol1 e H w1),
      (screen_raise INTERVAL get_hist2 RSIIndicator symbol2 e H2 w2).
Qed.

(** ** Live feeds *)

Section Feeds.

Context {Interval : Type} (INTERVAL : Interval).
Context (tv_raises : tv_call Interval -> option exn).

Lemma count_occ_eqb (l : list Symbol) (s x : Symbol) :
  count_occ string_dec (x :: l) s
  = (if String.eqb x s then 1 else 0) + count_occ string_dec l s.
Proof.
  simpl. destruct (string_dec x s) as [->|Hne].
  - now rewrite String.eqb_refl.
  - now destruct (String.eqb_spec x s).
Qed.

(** One turn of the loop of lines 132-135 on a feed that does not raise. *)
Lemma main_subscribe_step symbol rest w :
  (forall c, tv_raises c = None) ->
  main_subscribe INTERVAL tv_raises (symbol :: rest) w =
  let seis := {| seis_id := length (filter is_new_seis (tv_calls w));
                 seis_symbol := symbol; seis_exchange := "NSE";
                 seis_interval := INTERVAL |} in
  main_subscribe INTERVAL tv_raises rest
    {| log := log w; stop_flag := stop_flag w;
       seis_list := seis_list w ++ [seis];
       tv_calls := (tv_calls w ++ [new_seis symbol "NSE" INTERVAL])
                   ++ [new_consumer seis] |}.
Proof.
  intros Hq. simpl. unfold bind, tvl_new_seis, tv, seis_list_append, ret, bind.
  now rewrite !Hq.
Qed.

(** C5, as the code has it: on a feed that does not raise, the loop opens
    one feed, attaches one consumer and tracks one entry for each occurrence
    of a symbol in the pass list, so that a symbol that occurs once in the
    pass list ends with exactly one feed, one consumer and one tracked
    entry. *)
Theorem one_feed_per_occurrence selected_stocks : forall w,
  (forall c, tv_raises c = None) ->
  exists w',
    main_subscribe INTERVAL tv_raises selected_stocks w = (Ok tt, w') /\
    (forall s,
       feeds_opened s (tv_calls w')
       = feeds_opened s (tv_calls w) + count_occ string_dec selected_stocks s /\
       consumers_attached s (tv_calls w')
       = consumers_attached s (tv_calls w) + count_occ string_dec selected_stocks s /\
       tracked s (seis_list w')
       = tracked s (seis_list w) + count_occ string_dec selected_stocks s) /\
    map seis_symbol (seis_list w') = map seis_symbol (seis_list w) ++ selected_stocks.
Proof.
  induction selected_stocks as [|symbol rest IH]; intros w Hq.
  - exists w. split; [reflexivity|]. split.
    + intros s. simpl. now rewrite !Nat.add_0_r.
    + now rewrite app_nil_r.
  - rewrite (main_subscribe_step symbol rest w Hq). cbv zeta.
    match goal with |- context [main_subscribe _ _ rest ?w1] =>
      destruct (IH w1 Hq) as (w' & Hrun & Hcount & Hmap) end.
    exists w'. split; [exact Hrun|]. split.
    + intros s. destruct (Hcount s) as (Hf & Hc & Ht).
      rewrite Hf, Hc, Ht, count_occ_eqb. cbn [tv_calls seis_list].
      unfold feeds_opened, consumers_attached, tracked.
      rewrite !filter_app, !length_app. cbn [filter opens attaches seis_symbol].
      destruct (String.eqb symbol s); cbn [length]; lia.
    + rewrite Hmap. cbn [seis_list]. rewrite map_app. cbn [map seis_symbol].
      now rewrite <- app_assoc.
Qed.

(** *** Teardown *)

Lemma called_nil (w : World Interval) : called [] w = w.
Proof. destruct w; unfold called; simpl. now rewrite app_nil_r. Qed.

Lemma called_app cs cs' (w : World Interval) :
  called cs' (called cs w) = called (cs ++ cs') w.
Proof. unfold called; simpl. now rewrite app_assoc. Qed.

Lemma tv_run c (w : World Interval) :
  tv tv_raises c w =
  (match tv_raises c with Some e => Raise e | None => Ok tt end, called [c] w).
Proof. unfold tv. now destruct (tv_raises c). Qed.

(** The loop of lines 144-146 makes the calls of a complete teardown, in
    order, up to and including the first one that raises. *)
Lemma teardown_run l : forall w,
  exists r attempted rest,
    teardown tv_raises l w = (r, called attempted w) /\
    teardown_calls l = attempted ++ rest /\
    ((r = Ok tt /\ rest = [] /\ Forall (fun c => tv_raises c = None) attempted) \/
     (exists e c done,
        r = Raise e /\ attempted = done ++ [c] /\
        Forall (fun c => tv_raises c = None) done /\ tv_raises c = Some e)).
Proof.
  induction l as [|seis l IH]; intros w.
  - exists (Ok tt), [], []. rewrite called_nil. repeat split. left. now repeat split.
  - simpl. unfold bind at 1. rewrite tv_run.
    destruct (tv_raises (del_consumer seis)) as [e|] eqn:E1.
    { exists (Raise e), [del_consumer seis], (del_seis seis :: teardown_calls l).
      repeat split. right. exists e, (del_consumer seis), []. now repeat split. }
    unfold bind at 1. rewrite tv_run.
    destruct (tv_raises (del_seis seis)) as [e|] eqn:E2.
    { exists (Raise e), [del_consumer seis; del_seis seis], (teardown_calls l).
      rewrite called_app. repeat split. right.
      exists e, (del_seis seis), [del_consumer seis]. repeat split; auto. }
    destruct (IH (called [del_seis seis] (called [del_consumer seis] w)))
      as (r & attempted & rest & Hrun & Hcalls & Hr).
    exists r, (del_consumer seis :: del_seis seis :: attempted), rest.
    rewrite Hrun, !called_app. split; [reflexivity|]. split; [now rewrite Hcalls|].
    destruct Hr as [(-> & -> & Hall)|(e & c & done & -> & -> & Hall & Hc)].
    + left. repeat split. now repeat constructor.
    + right. exists e, c, (del_consumer seis :: del_seis seis :: done).
      repeat split; [|exact Hc]. now repeat constructor.
Qed.

(** C6, as the code has it: the handler sets the flag and makes the calls
    of the teardown in order (detach, then close, feed after feed) up to the
    first call that raises; when none raises every tracked feed is detached
    and closed and the process exits with status 0, and when one raises the
    exception leaves the handler and the calls after it are not made. *)
Theorem teardown_until_first_raise (w : World Interval) :
  exists r attempted rest w',
    signal_handler tv_raises w = (r, w') /\
    stop_flag w' = true /\
    tv_calls w' = tv_calls w ++ attempted /\
    teardown_calls (seis_list w) = attempted ++ rest /\
    ((r = SystemExit 0 /\ rest = [] /\
      Forall (fun c => tv_raises c = None) attempted) \/
     (exists e c done,
        r = Raise e /\ attempted = done ++ [c] /\
        Forall (fun c => tv_raises c = None) done /\ tv_raises c = Some e)) /\
    (Forall (fun c => tv_raises c = None) (teardown_calls (seis_list w)) ->
     r = SystemExit 0 /\ attempted = teardown_calls (seis_list w)).
Proof.
  unfold signal_handler, bind, logger, stop_flag_set.
  match goal with |- context [teardown _ _ ?w1] =>
    destruct (teardown_run (seis_list w) w1)
      as (r & attempted & rest & Hrun & Hcalls & Hr) end.
  cbn [seis_list] in *. rewrite Hrun.
  destruct Hr as [(-> & -> & Hall)|(e & c & done & -> & -> & Hall & Hc)].
  - eexists _, attempted, [], _. split; [reflexivity|].
    repeat split; auto. rewrite app_nil_r in Hcalls. now symmetry.
  - eexists _, (done ++ [c]), rest, _. split; [reflexivity|].
    split; [reflexivity|]. split; [reflexivity|]. split; [exact Hcalls|]. split.
    + right. exists e, c, done. now repeat split.
    + intros Hnone. exfalso. rewrite Hcalls in Hnone.
      apply Forall_app in Hnone. destruct Hnone as [Hnone _].
      apply Forall_app in Hnone. destruct Hnone as [_ Hnone].
      inversion Hnone; congruence.
Qed.

End Feeds.

(** ** Startup *)

Section Startup.

Context `{arith : Arith}.
Context {Interval : Type} (INTERVAL : Interval).
Context (get_hist : Symbol -> string -> Interval -> nat -> response (option DataFrame)).
Context (RSIIndicator : list num -> nat -> response (list num)).
Context (read_excel : string -> response (list Symbol)) (current_dir : string).
Context (tv_raises : tv_call Interval -> option exn).
Context (as_completed : list Symbol -> list Symbol).
Context (TvDatafeedLive : string -> string -> response unit).

Local Abbreviation script' :=
  (script INTERVAL get_hist RSIIndicator read_excel current_dir tv_raises
     as_completed TvDatafeedLive).

(** C7, as the code has it: the script exits with status 1 before any
    screening or subscription when the provider cannot be initialised or
    the universe cannot be loaded; on an empty universe it screens and
    subscribes nothing either, but logs a warning and returns normally. *)
Theorem startup_failures (w : World Interval) :
  (forall e, TvDatafeedLive USERNAME PASSWORD = Raises e ->
     script' w =
     (SystemExit 1,
      emit [(INFO, "Attempting to initialize TvDatafeedLive with provided credentials...");
            (ERROR, fstr ["Failed to initialize TvDatafeedLive: "; e])] w)) /\
  (TvDatafeedLive USERNAME PASSWORD = Returns tt ->
   (forall e, read_excel (FILE_PATH current_dir) = Raises e ->
      script' w =
      (SystemExit 1,
       emit [(INFO, "Attempting to initialize TvDatafeedLive with provided credentials...");
             (INFO, "Successfully initialized TvDatafeedLive.");
             (ERROR, fstr ["Error loading stock symbols: "; e])] w)) /\
   (read_excel (FILE_PATH current_dir) = Returns [] ->
      script' w =
      (Ok tt,
       emit [(INFO, "Attempting to initialize TvDatafeedLive with provided credentials...");
             (INFO, "Successfully initialized TvDatafeedLive.");
             (INFO, "Stock symbols loaded successfully.");
             (WARNING, "No stocks to screen.")] w))).
Proof.
  unfold script, main, load_stock_symbols, try_except, bind, call, logger,
    sys_exit, ret, emit.
  split; [|intros Hlogin; split].
  - intros e He. rewrite He. cbn [log stop_flag seis_list tv_calls].
    now rewrite <- app_assoc.
  - intros e He. rewrite Hlogin, He. cbn [log stop_flag seis_list tv_calls].
    now rewrite <- !app_assoc.
  - intros He. rewrite Hlogin, He.
    cbn [log stop_flag seis_list tv_calls main_subscribe].
    unfold ret. now rewrite <- !app_assoc.
Qed.

End Startup.

(** ** Cancellation *)

(** C8 on the code: SIGINT sets the flag while three units are in flight
    and one is queued; when a worker is free again the queued unit starts
    all the same.  No step of the pool depends on the flag, and the batch
    loop run with the flag set still screens every symbol it is given. *)
Theorem units_start_after_stop_flag :
  Pool.run MAX_WORKERS (Pool.submit_all ["RELIANCE"; "INFY"; "TCS"; "NEWIPO"])
    [Pool.Start; Pool.Start; Pool.Start; Pool.Sigint; Pool.Finish "RELIANCE";
     Pool.Start]
  = Some {| Pool.pending := []; Pool.in_flight := ["INFY"; "TCS"; "NEWIPO"];
            Pool.completed := ["RELIANCE"]; Pool.stop_flag := true |} /\
  (forall k st flag,
     option_map Pool.in_flight
       (Pool.step k {| Pool.pending := Pool.pending st;
                       Pool.in_flight := Pool.in_flight st;
                       Pool.completed := Pool.completed st;
                       Pool.stop_flag := flag |} Pool.Start)
     = option_map Pool.in_flight (Pool.step k st Pool.Start)) /\
  (forall (arith : Arith) Interval (INTERVAL : Interval) get_hist RSIIndicator
          completed w,
     exists selected_stocks w',
       main_screen INTERVAL get_hist RSIIndicator completed []
         (snd (stop_flag_set w)) = (Ok selected_stocks, w') /\
       stop_flag w' = true /\
       Forall (fun s => In (INFO, fstr ["Screening stock: "; s]) (log w')) completed).
Proof.
  split; [reflexivity|]. split.
  - intros k st flag. simpl. destruct (Pool.pending st); [reflexivity|].
    now destruct (length (Pool.in_flight st) <? k).
  - intros arith Interval INTERVAL get_hist RSIIndicator completed w.
    eexists _, _. split; [apply main_screen_run|]. split; [reflexivity|].
    apply Forall_forall. intros s Hin. cbn [log emit].
    apply in_or_app. right. apply in_flat_map. exists s. split; [exact Hin|].
    apply records_screening.
Qed.

(** * Further properties of the code *)

(** ** Windows with a missing value *)

Lemma all_finite_NaN (xs : list num) : In NaN xs -> all_finite xs = None.
Proof.
  induction xs as [|[x|] xs IH]; simpl; intros H.
  - contradiction.
  - destruct H as [H|H]; [discriminate|]. now rewrite (IH H).
  - reflexivity.
Qed.

(** ** What a pass implies in exact arithmetic *)

Section RuleFacts.

Context {Interval : Type} (INTERVAL : Interval).
Context (get_hist : Symbol -> string -> Interval -> nat -> response (option DataFrame)).
Context (RSIIndicator : list num -> nat -> response (list num)).

Local Abbreviation screen := (screen_stock get_hist RSIIndicator).

(** A unit returns its symbol only on a frame of at least 200 bars whose
    seven inputs are numbers that meet the five conditions. *)
Lemma pass_inputs symbol df w :
  get_hist symbol "NSE" INTERVAL N_BARS = Returns (Some df) ->
  fst (screen symbol INTERVAL N_BARS w) = Ok (Some symbol) ->
  200 <= length df /\
  exists s rsi,
    last (map close df) NaN = Fin (current_close s) /\
    window_mean 50 (map close df) = Fin (short_ma s) /\
    window_mean 200 (map close df) = Fin (long_ma s) /\
    last (map high df) NaN = Fin (day_high s) /\
    RSIIndicator (map close df) 14 = Returns rsi /\
    iloc_last rsi = Returns (Fin (momentum s)) /\
    last (map volume df) NaN = Fin (current_volume s) /\
    series_mean (map volume df) = Fin (mean_volume s) /\
    five_conditions s.
Proof.
  intros H Hpass.
  destruct (Nat.le_gt_cases 200 (length df)) as [Hlen|Hlen].
  2:{ destruct (screen_unavailable INTERVAL get_hist RSIIndicator symbol)
        as (l & Hl); [right; right; now exists df|].
      rewrite (Hl w) in Hpass. discriminate. }
  split; [exact Hlen|].
  rewrite (screen_long INTERVAL get_hist RSIIndicator symbol df w H Hlen) in Hpass.
  unfold bind, call, ret, logger in Hpass.
  destruct (RSIIndicator (map close df) 14) as [rsi|e] eqn:Hrsi; [|discriminate].
  destruct (iloc_last rsi) as [m|e] eqn:Hm; [|discriminate].
  destruct (criteria _ _ _ _ m _ _) eqn:C; [|discriminate].
  apply criteria_true_iff in C.
  destruct C as (s & Hc & H50 & H200 & Hh & -> & Hv & Hav & Hfive).
  exists s, rsi. repeat (split; [assumption || reflexivity|]). exact Hfive.
Qed.

(** X3: a NaN close anywhere in the last 200 bars keeps the symbol out of
    the pass list: the unit returns [None] or raises, never its symbol. *)
Theorem nan_close_never_passes symbol df w :
  get_hist symbol "NSE" INTERVAL N_BARS = Returns (Some df) ->
  In NaN (recent 200 (map close df)) ->
  selected INTERVAL get_hist RSIIndicator symbol = false /\
  (fst (screen symbol INTERVAL N_BARS w) = Ok None \/
   exists e, fst (screen symbol INTERVAL N_BARS w) = Raise e).
Proof.
  intros H Hnan.
  assert (Hno : forall w0, fst (screen symbol INTERVAL N_BARS w0) <> Ok (Some symbol)).
  { intros w0 Hpass.
    destruct (pass_inputs symbol df w0 H Hpass)
      as (Hlen & s & _ & _ & _ & H200 & _).
    change (qwindow_mean 200 (map close df) = Fin (long_ma s)) in H200.
    unfold qwindow_mean in H200. change (200 =? 0) with false in H200.
    cbn [orb] in H200.
    destruct (length _ <? 200); [discriminate|].
    destruct (all_finite _) as [qs|] eqn:Hq; [|discriminate].
    unfold recent in Hnan.
    pose proof (eq_trans (eq_sym (all_finite_NaN _ Hnan)) Hq). discriminate. }
  destruct (screen_cases INTERVAL get_hist RSIIndicator symbol)
    as (r & l & Hl & [(-> & _)|[(-> & _)|(e & -> & _)]]).
  - exfalso. apply (Hno w). now rewrite (Hl w).
  - split; [unfold selected; now rewrite (Hl World0) | left; now rewrite (Hl w)].
  - split; [unfold selected; now rewrite (Hl World0) | right; exists e; now rewrite (Hl w)].
Qed.

End RuleFacts.


(** ** What the batch records *)

Section BatchFacts.

Context `{arith : Arith}.
Context {Interval : Type} (INTERVAL : Interval).
Context (get_hist : Symbol -> string -> Interval -> nat -> response (option DataFrame)).
Context (RSIIndicator : list num -> nat -> response (list num)).

Local Abbreviation screen := (screen_stock get_hist RSIIndicator).
Local Abbreviation selected' := (selected INTERVAL get_hist RSIIndicator).
Local Abbreviation records' := (records INTERVAL get_hist RSIIndicator).
Local Abbreviation collect' := (collect INTERVAL get_hist RSIIndicator).
Local Abbreviation main_screen' := (main_screen INTERVAL get_hist RSIIndicator).

(** X13: [fetch_historical_data] never raises and never hands back an
    empty frame: it returns the provider's frame when that frame has a bar,
    without a record, and [None] after exactly one WARNING or ERROR record
    in every other case. *)
Theorem fetch_never_raises symbol exchange interval n_bars (w : World Interval) :
  exists r l,
    fetch_historical_data get_hist symbol exchange interval n_bars w
      = (Ok r, emit l w) /\
    (forall df, r = Some df <->
       get_hist symbol exchange interval n_bars = Returns (Some df) /\ df <> []) /\
    (r = None <->
     exists lv msg, l = [(lv, msg)] /\ (lv = WARNING \/ lv = ERROR)) /\
    (r <> None -> l = []).
Proof.
  destruct (get_hist symbol exchange interval n_bars) as [[[|b df']|]|e] eqn:H.
  - eexists _, _. split; [apply fetch_no_data; now right|]. split; [|split].
    + intros df. split; [discriminate | intros [[= <-] Hne]; now contradiction Hne].
    + split; [|reflexivity]. intros _. eexists _, _. split; [reflexivity | now left].
    + intros Hc. now contradiction Hc.
  - eexists _, _. split; [apply (fetch_frame _ _ _ _ _ _ H); discriminate|].
    split; [|split].
    + intros df. split; [intros [= <-]; now split | now intros [[= <-] _]].
    + split; [discriminate | intros (lv & msg & [=] & _)].
    + reflexivity.
  - eexists _, _. split; [apply fetch_no_data; now left|]. split; [|split].
    + intros df. split; [discriminate | intros [[=] _]].
    + split; [|reflexivity]. intros _. eexists _, _. split; [reflexivity | now left].
    + intros Hc. now contradiction Hc.
  - eexists _, _. split; [apply (fetch_raise _ _ _ _ _ _ H)|]. split; [|split].
    + intros df. split; [discriminate | intros [[=] _]].
    + split; [|reflexivity]. intros _. eexists _, _. split; [reflexivity | now right].
    + intros Hc. now contradiction Hc.
Qed.

(** X5: a unit logs the CRITICAL record of its symbol exactly when it
    returns the symbol, and no other CRITICAL record. *)
Theorem critical_record_iff_pass symbol w :
  exists l,
    snd (screen symbol INTERVAL N_BARS w) = emit l w /\
    (In (CRITICAL, fstr ["Stock "; symbol; " meets the criteria"]) l
     <-> fst (screen symbol INTERVAL N_BARS w) = Ok (Some symbol)) /\
    (forall msg, In (CRITICAL, msg) l ->
       msg = fstr ["Stock "; symbol; " meets the criteria"]).
Proof.
  destruct (screen_cases INTERVAL get_hist RSIIndicator symbol)
    as (r & l & Hl & [(-> & ->)|[(-> & Hall)|(e & -> & ->)]]);
    eexists; rewrite (Hl w); (split; [reflexivity|]); cbn [fst]; split.
  - split; [reflexivity | intros _; right; now left].
  - intros msg [[=]|[[= <-]|[]]]. reflexivity.
  - split; [|discriminate]. intros [[=]|Hin].
    rewrite Forall_forall in Hall. destruct (Hall _ Hin); discriminate.
  - intros msg [[=]|Hin].
    rewrite Forall_forall in Hall. destruct (Hall _ Hin); discriminate.
  - split; [|discriminate]. intros [[=]|[]].
  - intros msg [[=]|[]].
Qed.

(** X6: a symbol is in the pass list exactly when it was submitted, is not
    the empty string and its unit returned it; the empty string is falsy at
    line 122, so it is never listed. *)
Theorem pass_list_membership completed w :
  exists selected_stocks w',
    main_screen' completed [] w = (Ok selected_stocks, w') /\
    ~ In "" selected_stocks /\
    (forall s, In s selected_stocks <->
       In s completed /\ s <> "" /\
       fst (screen s INTERVAL N_BARS w) = Ok (Some s)).
Proof.
  assert (Hsel : forall s, selected' s = true <->
            s <> "" /\ fst (screen s INTERVAL N_BARS w) = Ok (Some s)).
  { intros s. unfold selected.
    rewrite (screen_world INTERVAL get_hist RSIIndicator s w). cbn [fst].
    destruct (screen_cases INTERVAL get_hist RSIIndicator s)
      as (r & l & Hl & [(-> & _)|[(-> & _)|(e & -> & _)]]);
      rewrite (Hl World0); cbn [fst truthy].
    - rewrite negb_true_iff. destruct (String.eqb_spec s "") as [->|Hne].
      + split; [discriminate | intros [Hc _]; now contradiction Hc].
      + split; [intros _; now split | reflexivity].
    - split; [discriminate | intros [_ [=]]].
    - split; [discriminate | intros [_ [=]]]. }
  eexists _, _. split; [apply main_screen_run|]. cbn [app]. split.
  - intros Hin. apply filter_In in Hin. destruct Hin as [_ Hin].
    apply Hsel in Hin. now destruct Hin.
  - intros s. rewrite filter_In, Hsel. tauto.
Qed.

Lemma Permutation_filter {A} (f : A -> bool) (l l' : list A) :
  Permutation l l' -> Permutation (filter f l) (filter f l').
Proof.
  induction 1 as [|x l l' _ IH|x y l|l l' l'' _ IH _ IH']; simpl.
  - constructor.
  - destruct (f x); [now constructor | exact IH].
  - destruct (f x), (f y); try reflexivity. apply perm_swap.
  - now transitivity (filter f l').
Qed.

(** X7: the content of the pass list does not depend on the order in which
    the pool completes the units: two completion orders of the same units
    give pass lists that are permutations of each other. *)
Theorem pass_list_order_independent completed1 completed2 w1 w2 :
  Permutation completed1 completed2 ->
  exists selected1 selected2 w1' w2',
    main_screen INTERVAL get_hist RSIIndicator completed1 [] w1
      = (Ok selected1, w1') /\
    main_screen INTERVAL get_hist RSIIndicator completed2 [] w2
      = (Ok selected2, w2') /\
    Permutation selected1 selected2.
Proof.
  intros Hperm. eexists _, _, _, _.
  split; [apply main_screen_run|]. split; [apply main_screen_run|].
  cbn [app]. now apply Permutation_filter.
Qed.

Lemma is_screening_eqb (s s' : Symbol) :
  is_screening s (screening s') = String.eqb s' s.
Proof. reflexivity. Qed.

Lemma collect_records symbol r l :
  logs_only (screen symbol INTERVAL N_BARS) (Ok r) l -> records' symbol = l ++ [].
Proof.
  intros Hl.
  destruct r as [r|]; [destruct (truthy (Some r)) eqn:T|];
    (eapply (records_of INTERVAL get_hist RSIIndicator); unfold collect;
     apply logs_only_try_ok; apply (logs_only_bind _ _ _ _ _ _ Hl);
     cbv beta iota; try rewrite T; apply logs_only_ret).
Qed.

Lemma collect_records_raise symbol e l :
  logs_only (screen symbol INTERVAL N_BARS) (Raise e) l ->
  records' symbol = l ++ [(ERROR, fstr ["Error screening stock: "; e])] ++ [].
Proof.
  intros Hl. eapply (records_of INTERVAL get_hist RSIIndicator). unfold collect.
  apply (logs_only_try _ _ _ _ _ _ (logs_only_bind_raise _ _ _ _ Hl)).
  apply (logs_only_bind _ _ tt _ _ _ (logs_only_logger _ _)), logs_only_ret.
Qed.

(** A future leaves the opening record of its unit, then records of other
    levels only. *)
Lemma records_shape symbol :
  exists l, records' symbol = screening symbol :: l /\
            Forall (fun rec => fst rec <> INFO) l.
Proof.
  destruct (screen_cases INTERVAL get_hist RSIIndicator symbol)
    as (r & l & Hl & [(-> & ->)|[(-> & Hall)|(e & -> & ->)]]).
  - rewrite (collect_records _ _ _ Hl). eexists. split; [reflexivity|].
    repeat constructor. discriminate.
  - rewrite (collect_records _ _ _ Hl), app_nil_r. eexists. split; [reflexivity|].
    eapply Forall_impl; [|exact Hall].
    intros rec [E|E]; rewrite E; discriminate.
  - rewrite (collect_records_raise _ _ _ Hl). eexists. split; [reflexivity|].
    repeat constructor. discriminate.
Qed.

Lemma screenings_records (s symbol : Symbol) :
  screenings s (records' symbol) = if String.eqb symbol s then 1 else 0.
Proof.
  destruct (records_shape symbol) as (l & -> & Hall).
  unfold screenings. cbn [filter]. rewrite is_screening_eqb.
  assert (E : filter (is_screening s) l = []).
  { induction Hall as [|rec l Hrec _ IH]; [reflexivity|]. cbn [filter].
    unfold is_screening at 1. destruct (fst rec); try exact IH. contradiction. }
  rewrite E. now destruct (String.eqb symbol s).
Qed.

(** X8: the batch screens every submitted symbol once for each of its
    occurrences in the universe list, whatever the completion order: no
    symbol is skipped and none is screened again. *)
Theorem each_symbol_screened_once stock_symbols completed w :
  Permutation completed stock_symbols ->
  exists selected_stocks w',
    main_screen' completed [] w = (Ok selected_stocks, w') /\
    (forall s, screenings s (log w')
               = screenings s (log w) + count_occ string_dec stock_symbols s).
Proof.
  intros Hperm. eexists _, _. split; [apply main_screen_run|].
  intros s. cbn [log emit]. unfold screenings at 1.
  rewrite filter_app, length_app. fold (screenings s (log w)). f_equal.
  rewrite <- (proj1 (Permutation_count_occ string_dec _ _) Hperm s).
  clear Hperm. induction completed as [|symbol rest IH]; [reflexivity|].
  cbn [flat_map]. rewrite filter_app, length_app.
  fold (screenings s (records' symbol)). rewrite screenings_records, IH.
  simpl count_occ. destruct (string_dec symbol s) as [->|Hne].
  - now rewrite String.eqb_refl.
  - now destruct (String.eqb_spec symbol s).
Qed.

(** How often a symbol is in a filtered list. *)
Lemma count_occ_filter (f : Symbol -> bool) (l : list Symbol) (s : Symbol) :
  count_occ string_dec (filter f l) s
  = if f s then count_occ string_dec l s else 0.
Proof.
  induction l as [|x l IH]; simpl; [now destruct (f s)|].
  destruct (string_dec x s) as [->|Hne].
  - destruct (f s); simpl; [|exact IH].
    destruct (string_dec s s); [|contradiction]. now rewrite IH.
  - destruct (f x); simpl; [|exact IH].
    destruct (string_dec x s); [contradiction | exact IH].
Qed.

(** The batch appends the symbol of a future exactly when the unit returns
    it and it is not the empty string. *)
Lemma selected_true_iff s w :
  selected' s = true <->
  s <> "" /\ fst (screen s INTERVAL N_BARS w) = Ok (Some s).
Proof.
  unfold selected.
  rewrite (screen_world INTERVAL get_hist RSIIndicator s w). cbn [fst].
  destruct (screen_cases INTERVAL get_hist RSIIndicator s)
    as (r & l & Hl & [(-> & _)|[(-> & _)|(e & -> & _)]]);
    rewrite (Hl World0); cbn [fst truthy].
  - rewrite negb_true_iff. destruct (String.eqb_spec s "") as [->|Hne].
    + split; [discriminate | intros [Hc _]; now contradiction Hc].
    + split; [intros _; now split | reflexivity].
  - split; [discriminate | intros [_ [=]]].
  - split; [discriminate | intros [_ [=]]].
Qed.

(** The opening records of a batch count the units it ran. *)
Lemma screenings_batch s completed :
  screenings s (flat_map records' completed) = count_occ string_dec completed s.
Proof.
  induction completed as [|symbol rest IH]; [reflexivity|].
  cbn [flat_map]. unfold screenings in *. rewrite filter_app, length_app.
  fold (screenings s (records' symbol)). rewrite screenings_records, IH.
  simpl count_occ. destruct (string_dec symbol s) as [->|Hne].
  - now rewrite String.eqb_refl.
  - now destruct (String.eqb_spec symbol s).
Qed.

(** C3, as the code has it: whatever the number of workers and the order
    in which the pool completes the units, a symbol is in the pass list at
    most as many times as it is in the universe list, and a universe list
    without duplicates gives a pass list without duplicates; every symbol is
    screened once for each time it is listed, and a symbol that passes is in
    the pass list exactly as many times as it is listed, any other symbol
    not at all. *)
Theorem pass_list_no_duplicates max_workers stock_symbols evs st w :
  Pool.run max_workers (Pool.submit_all stock_symbols) evs = Some st ->
  Pool.drained st ->
  exists selected_stocks w',
    main_screen INTERVAL get_hist RSIIndicator (Pool.completed st) [] w
      = (Ok selected_stocks, w') /\
    (forall s, count_occ string_dec selected_stocks s
               <= count_occ string_dec stock_symbols s) /\
    (NoDup stock_symbols -> NoDup selected_stocks) /\
    (forall s, screenings s (log w')
               = screenings s (log w) + count_occ string_dec stock_symbols s) /\
    (forall s,
       s <> "" ->
       fst (screen_stock get_hist RSIIndicator s INTERVAL N_BARS w) = Ok (Some s) ->
       count_occ string_dec selected_stocks s = count_occ string_dec stock_symbols s) /\
    (forall s,
       ~ (s <> "" /\
          fst (screen_stock get_hist RSIIndicator s INTERVAL N_BARS w) = Ok (Some s)) ->
       count_occ string_dec selected_stocks s = 0).
Proof.
  intros Hrun Hdr. pose proof (drained_perm _ _ _ _ Hrun Hdr) as Hperm.
  pose proof (proj1 (Permutation_count_occ string_dec _ _) Hperm) as Hcount.
  eexists _, _. split; [apply main_screen_run|]. cbn [app log emit].
  split; [|split; [|split; [|split]]].
  - intros s. rewrite <- (Hcount s). apply count_occ_filter_le.
  - intros Hnd. apply NoDup_filter.
    apply (Permutation_NoDup (Permutation_sym Hperm) Hnd).
  - intros s. unfold screenings at 1. rewrite filter_app, length_app.
    fold (screenings s (log w)). f_equal.
    fold (screenings s (flat_map records' (Pool.completed st))).
    now rewrite screenings_batch, Hcount.
  - intros s Hne Hpass. rewrite count_occ_filter, <- (Hcount s).
    now rewrite (proj2 (selected_true_iff s w) (conj Hne Hpass)).
  - intros s Hn. rewrite count_occ_filter.
    destruct (selected' s) eqn:E; [|reflexivity].
    exfalso. apply Hn. now apply (selected_true_iff s w).
Qed.

End BatchFacts.

(** ** Feeds over a whole run *)

Section FeedFacts.

Context {Interval : Type} (INTERVAL : Interval).
Context (tv_raises : tv_call Interval -> option exn).

(** On a feed that does not raise the loop of lines 132-135 opens and tracks
    one feed per symbol of the pass list, in order. *)
Lemma main_subscribe_quiet selected_stocks : forall w,
  (forall c, tv_raises c = None) ->
  exists new,
    map seis_symbol new = selected_stocks /\
    main_subscribe INTERVAL tv_raises selected_stocks w =
    (Ok tt, {| log := log w; stop_flag := stop_flag w;
               seis_list := seis_list w ++ new;
               tv_calls := tv_calls w ++ subscribe_calls INTERVAL new |}).
Proof.
  induction selected_stocks as [|symbol rest IH]; intros w Hq.
  - exists []. split; [reflexivity|]. destruct w. unfold subscribe_calls. simpl.
    unfold ret. now rewrite !app_nil_r.
  - rewrite (main_subscribe_step INTERVAL tv_raises symbol rest w Hq). cbv zeta.
    match goal with |- context [main_subscribe _ _ rest ?w1] =>
      destruct (IH w1 Hq) as (new & Hmap & Hrun) end.
    rewrite Hrun. cbn [log stop_flag seis_list tv_calls].
    exists ({| seis_id := length (filter is_new_seis (tv_calls w));
               seis_symbol := symbol; seis_exchange := "NSE";
               seis_interval := INTERVAL |} :: new).
    split; [cbn [map seis_symbol]; now rewrite Hmap|].
    cbn [subscribe_calls flat_map seis_symbol]. fold (subscribe_calls INTERVAL new).
    now rewrite <- !app_assoc.
Qed.

Lemma tracked_app s (l l' : list (Seis Interval)) :
  tracked s (l ++ l') = tracked s l + tracked s l'.
Proof. unfold tracked. now rewrite filter_app, length_app. Qed.

Lemma tracked_count s (l : list (Seis Interval)) :
  tracked s l = count_occ string_dec (map seis_symbol l) s.
Proof.
  induction l as [|seis l IH]; [reflexivity|].
  change (seis :: l) with ([seis] ++ l). rewrite tracked_app, IH.
  cbn [map app]. rewrite count_occ_eqb. f_equal.
  unfold tracked. cbn [filter]. now destruct (String.eqb (seis_symbol seis) s).
Qed.

Lemma subscribe_calls_count s (new : list (Seis Interval)) :
  feeds_opened s (subscribe_calls INTERVAL new) = tracked s new /\
  consumers_attached s (subscribe_calls INTERVAL new) = tracked s new /\
  feeds_closed s (subscribe_calls INTERVAL new) = 0 /\
  consumers_detached s (subscribe_calls INTERVAL new) = 0.
Proof.
  unfold feeds_opened, consumers_attached, feeds_closed, consumers_detached, tracked.
  induction new as [|seis new (IH1 & IH2 & IH3 & IH4)]; [now repeat split|].
  cbn [subscribe_calls flat_map app filter opens attaches closes detaches].
  fold (subscribe_calls INTERVAL new).
  destruct (String.eqb (seis_symbol seis) s); cbn [length];
    rewrite IH1, IH2, IH3, IH4; now repeat split.
Qed.

Lemma teardown_calls_count s (l : list (Seis Interval)) :
  feeds_closed s (teardown_calls l) = tracked s l /\
  consumers_detached s (teardown_calls l) = tracked s l /\
  feeds_opened s (teardown_calls l) = 0 /\
  consumers_attached s (teardown_calls l) = 0.
Proof.
  unfold feeds_opened, consumers_attached, feeds_closed, consumers_detached, tracked.
  induction l as [|seis l (IH1 & IH2 & IH3 & IH4)]; [now repeat split|].
  cbn [teardown_calls flat_map app filter opens attaches closes detaches].
  fold (teardown_calls l).
  destruct (String.eqb (seis_symbol seis) s); cbn [length];
    rewrite IH1, IH2, IH3, IH4; now repeat split.
Qed.

Lemma teardown_calls_In (seis : Seis Interval) (l : list (Seis Interval)) :
  In (del_seis seis) (teardown_calls l) -> In seis l.
Proof.
  induction l as [|seis' l IH]; simpl; [easy|].
  intros [[=]|[[= ->]|H]]; [now left | right; now apply IH].
Qed.

(** X9: when opening the feed of a symbol succeeds and attaching its
    consumer raises, the loop stops there with that exception: the feed is
    opened but never tracked, the symbols after it are not subscribed, and
    the shutdown handler, which walks the tracked feeds only, never closes
    it. *)
Theorem failed_attach_leaks_feed symbol rest w e :
  tv_raises (new_seis symbol "NSE" INTERVAL) = None ->
  tv_raises (new_consumer
               {| seis_id := length (filter is_new_seis (tv_calls w));
                  seis_symbol := symbol; seis_exchange := "NSE";
                  seis_interval := INTERVAL |}) = Some e ->
  ~ In {| seis_id := length (filter is_new_seis (tv_calls w));
          seis_symbol := symbol; seis_exchange := "NSE";
          seis_interval := INTERVAL |} (seis_list w) ->
  exists w1,
    main_subscribe INTERVAL tv_raises (symbol :: rest) w = (Raise e, w1) /\
    seis_list w1 = seis_list w /\
    tv_calls w1
    = tv_calls w ++
      [new_seis symbol "NSE" INTERVAL;
       new_consumer {| seis_id := length (filter is_new_seis (tv_calls w));
                       seis_symbol := symbol; seis_exchange := "NSE";
                       seis_interval := INTERVAL |}] /\
    exists r attempted w2,
      signal_handler tv_raises w1 = (r, w2) /\
      tv_calls w2 = tv_calls w1 ++ attempted /\
      ~ In (del_seis {| seis_id := length (filter is_new_seis (tv_calls w));
                        seis_symbol := symbol; seis_exchange := "NSE";
                        seis_interval := INTERVAL |}) attempted.
Proof.
  intros Hopen Hattach Hfresh.
  eexists. split.
  { simpl. unfold bind, tvl_new_seis, tv, ret, bind. rewrite Hopen.
    cbn [tv_calls]. rewrite Hattach. reflexivity. }
  cbn [seis_list tv_calls]. split; [reflexivity|].
  split; [now rewrite <- app_assoc|].
  unfold signal_handler, bind, logger, stop_flag_set.
  match goal with |- context [teardown _ ?l ?w1] =>
    destruct (teardown_run tv_raises l w1)
      as (r & attempted & rest' & Hrun & Hcalls & Hr) end.
  cbn [seis_list] in *. rewrite Hrun.
  assert (Hnot : ~ In (del_seis {| seis_id := length (filter is_new_seis (tv_calls w));
                                   seis_symbol := symbol; seis_exchange := "NSE";
                                   seis_interval := INTERVAL |}) attempted).
  { intros Hin. apply Hfresh, teardown_calls_In. rewrite Hcalls.
    apply in_or_app. now left. }
  destruct Hr as [(-> & _)|(e' & c & done & -> & _)];
    eexists _, attempted, _; (split; [reflexivity|]); split; auto.
Qed.

End FeedFacts.

(** ** The script from start to shutdown *)

Section ScriptFacts.

Context `{arith : Arith}.
Context {Interval : Type} (INTERVAL : Interval).
Context (get_hist : Symbol -> string -> Interval -> nat -> response (option DataFrame)).
Context (RSIIndicator : list num -> nat -> response (list num)).
Context (read_excel : string -> response (list Symbol)) (current_dir : string).
Context (tv_raises : tv_call Interval -> option exn).
Context (as_completed : list Symbol -> list Symbol).
Context (TvDatafeedLive : string -> string -> response unit).

Local Abbreviation script' :=
  (script INTERVAL get_hist RSIIndicator read_excel current_dir tv_raises
     as_completed TvDatafeedLive).
Local Abbreviation selected' := (selected INTERVAL get_hist RSIIndicator).
Local Abbreviation records' := (records INTERVAL get_hist RSIIndicator).

(** The whole run on a provider that logs in, a universe that loads and is
    not empty and a feed that does not raise. *)
Lemma script_quiet_run stock_symbols w :
  TvDatafeedLive USERNAME PASSWORD = Returns tt ->
  read_excel (FILE_PATH current_dir) = Returns stock_symbols ->
  stock_symbols <> [] ->
  (forall c, tv_raises c = None) ->
  exists new,
    map seis_symbol new = filter selected' (as_completed stock_symbols) /\
    script' w =
    (Ok tt,
     {| log := log w ++
               [(INFO, "Attempting to initialize TvDatafeedLive with provided credentials...");
                (INFO, "Successfully initialized TvDatafeedLive.");
                (INFO, "Stock symbols loaded successfully.")]
               ++ flat_map records' (as_completed stock_symbols)
               ++ [(INFO, "Stocks with current price above 50 DMA and 200 DMA, 0.1% below day's high, and favorable volume and RSI conditions:");
                   (INFO, repr_symbols (filter selected' (as_completed stock_symbols)))];
        stop_flag := stop_flag w;
        seis_list := seis_list w ++ new;
        tv_calls := tv_calls w ++ subscribe_calls INTERVAL new |}).
Proof.
  intros Hlogin Hread Hne Hq.
  unfold script, main, load_stock_symbols, try_except, bind, call, logger, ret.
  rewrite Hlogin, Hread. destruct stock_symbols as [|s0 rest]; [contradiction|].
  rewrite (main_screen_run INTERVAL get_hist RSIIndicator (as_completed (s0 :: rest)) []).
  cbn [app emit log stop_flag seis_list tv_calls].
  match goal with |- context [main_subscribe _ _ ?l ?w1] =>
    destruct (main_subscribe_quiet INTERVAL tv_raises l w1 Hq) as (new & Hmap & Hrun) end.
  rewrite Hrun. cbn [log stop_flag seis_list tv_calls].
  exists new. split; [exact Hmap|]. now rewrite <- !app_assoc.
Qed.

(** X10: on such a run the feeds the script tracks are those of the pass
    list, in the order the units completed and one per listed symbol, and
    the last record of the log is the pass list. *)
Theorem script_subscribes_pass_list stock_symbols w :
  TvDatafeedLive USERNAME PASSWORD = Returns tt ->
  read_excel (FILE_PATH current_dir) = Returns stock_symbols ->
  stock_symbols <> [] ->
  (forall c, tv_raises c = None) ->
  exists w',
    script' w = (Ok tt, w') /\
    map seis_symbol (seis_list w')
    = map seis_symbol (seis_list w) ++ filter selected' (as_completed stock_symbols) /\
    length (tv_calls w')
    = length (tv_calls w) + 2 * length (filter selected' (as_completed stock_symbols)) /\
    stop_flag w' = stop_flag w /\
    exists before,
      log w' = before ++
               [(INFO, repr_symbols (filter selected' (as_completed stock_symbols)))].
Proof.
  intros Hlogin Hread Hne Hq.
  destruct (script_quiet_run stock_symbols w Hlogin Hread Hne Hq) as (new & Hmap & Hrun).
  eexists. split; [exact Hrun|]. cbn [log stop_flag seis_list tv_calls].
  split; [now rewrite map_app, Hmap|]. split; [|split; [reflexivity|]].
  - rewrite length_app, <- Hmap, length_map. f_equal.
    clear. induction new as [|seis new IH]; [reflexivity|].
    cbn [subscribe_calls flat_map app length]. fold (subscribe_calls INTERVAL new).
    rewrite IH. lia.
  - eexists. rewrite !app_assoc.
    change [?a; ?b] with ([a] ++ [b]). rewrite !app_assoc. reflexivity.
Qed.

(** X11: on such a run interrupted once the feeds are live, the handler
    detaches and closes every feed the run opened, and the feeds tracked
    before it, once each, then exits with status 0: for every symbol the run
    closes as many feeds as it opened. *)
Theorem subscribe_teardown_round_trip stock_symbols w :
  TvDatafeedLive USERNAME PASSWORD = Returns tt ->
  read_excel (FILE_PATH current_dir) = Returns stock_symbols ->
  stock_symbols <> [] ->
  (forall c, tv_raises c = None) ->
  exists w',
    script_then_sigint INTERVAL get_hist RSIIndicator read_excel current_dir
      tv_raises as_completed TvDatafeedLive w = (SystemExit 0, w') /\
    stop_flag w' = true /\
    forall s,
      let passed :=
        count_occ string_dec (filter selected' (as_completed stock_symbols)) s in
      feeds_opened s (tv_calls w') = feeds_opened s (tv_calls w) + passed /\
      consumers_attached s (tv_calls w') = consumers_attached s (tv_calls w) + passed /\
      feeds_closed s (tv_calls w')
      = feeds_closed s (tv_calls w) + tracked s (seis_list w) + passed /\
      consumers_detached s (tv_calls w')
      = consumers_detached s (tv_calls w) + tracked s (seis_list w) + passed.
Proof.
  intros Hlogin Hread Hne Hq.
  destruct (script_quiet_run stock_symbols w Hlogin Hread Hne Hq) as (new & Hmap & Hrun).
  unfold script_then_sigint, bind at 1. rewrite Hrun.
  unfold signal_handler, bind, logger, stop_flag_set.
  match goal with |- context [teardown _ ?l ?w1] =>
    destruct (teardown_run tv_raises l w1)
      as (r & attempted & rest & Hrun' & Hcalls & Hr) end.
  cbn [seis_list] in *. rewrite Hrun'.
  destruct Hr as [(-> & -> & _)|(e & c & done & _ & _ & _ & Hc)];
    [|rewrite Hq in Hc; discriminate].
  rewrite app_nil_r in Hcalls. subst attempted.
  eexists. split; [reflexivity|]. split; [reflexivity|].
  intros s. cbn [called tv_calls]. rewrite <- Hmap.
  destruct (subscribe_calls_count INTERVAL s new) as (S1 & S2 & S3 & S4).
  destruct (teardown_calls_count s (seis_list w ++ new)) as (T1 & T2 & T3 & T4).
  rewrite tracked_app in T1, T2. rewrite <- tracked_count.
  unfold feeds_opened, consumers_attached, feeds_closed, consumers_detached in *.
  rewrite !filter_app, !length_app, S1, S2, S3, S4, T1, T2, T3, T4. lia.
Qed.

End ScriptFacts.

(** * Concrete runs *)

Lemma scenario_frame_snapshot (rsi : float) :
  snapshot_of demo_rolling_mean demo_mean (const_rsi64 rsi) scenario_frame64
    (scenario_snapshot rsi).
Proof.
  unfold snapshot_of. repeat split; try (vm_compute; reflexivity).
  eexists. split; reflexivity.
Qed.

Lemma screen_stock_pass_iff_witness :
  demo_hist64 "RELIANCE" "NSE" in_daily N_BARS = Returns (Some scenario_frame64) /\
  200 <= length scenario_frame64 /\
  snapshot_of demo_rolling_mean demo_mean (const_rsi64 55) scenario_frame64
    (scenario_snapshot 55) /\
  scenario 55 (scenario_snapshot 55) /\
  fst (screen_stock (arith := demo_doubles) demo_hist64 (const_rsi64 55)
         "RELIANCE" in_daily N_BARS World0) = Ok (Some "RELIANCE") /\
  fst (screen_stock (arith := demo_doubles) demo_hist64 (const_rsi64 75)
         "RELIANCE" in_daily N_BARS World0) = Ok None.
Proof.
  assert (Hlen : 200 <= length scenario_frame64) by (apply Nat.leb_le; reflexivity).
  split; [reflexivity|]. split; [exact Hlen|].
  split; [apply scenario_frame_snapshot|].
  split; [unfold scenario; simpl; repeat split; reflexivity|]. split.
  - apply (proj1 (proj2 (screen_stock_pass_iff demo_rolling_mean demo_mean in_daily
       demo_hist64 (const_rsi64 55) "RELIANCE" scenario_frame64 World0 eq_refl Hlen))
       (scenario_snapshot 55)).
    + apply scenario_frame_snapshot.
    + unfold scenario; simpl. repeat split; reflexivity.
  - apply (proj2 (proj2 (screen_stock_pass_iff demo_rolling_mean demo_mean in_daily
       demo_hist64 (const_rsi64 75) "RELIANCE" scenario_frame64 World0 eq_refl Hlen))
       (scenario_snapshot 75)).
    + apply scenario_frame_snapshot.
    + unfold scenario; simpl. repeat split; reflexivity.
Defined.

(** A close of 299.7 under a high of 300 passes the third condition: in
    doubles 300 * 0.999 and 299.7 are the same number. *)
Example boundary_close_passes :
  (300 * 0.999 <=? 299.7)%float = true /\
  fst (screen_stock (arith := demo_doubles) demo_hist64 (const_rsi64 55)
         "BOUNDARY" in_daily N_BARS World0) = Ok (Some "BOUNDARY").
Proof. split; vm_compute; reflexivity. Qed.

(** A symbol that holds an apostrophe is written between double quotes. *)
Example repr_symbols_apostrophe :
  repr_symbols ["O'NEIL"; "M&M"]
  = fstr ["["; String dquote "O'NEIL"; String dquote ", 'M&M']"].
Proof. reflexivity. Qed.

Lemma unavailable_returns_None_witness :
  length short_frame64 = 120 /\
  fst (screen_stock (arith := demo_doubles) demo_hist64 (const_rsi64 55)
         "NEWIPO" in_daily N_BARS World0) = Ok None /\
  selected (arith := demo_doubles) in_daily demo_hist64 (const_rsi64 55) "NEWIPO"
    = false.
Proof.
  split; [reflexivity|].
  assert (Hun : unavailable (arith := demo_doubles) in_daily demo_hist64 "NEWIPO").
  { right; right. exists short_frame64. split; [reflexivity|].
    apply Nat.ltb_lt. reflexivity. }
  split.
  - apply (unavailable_returns_None demo_rolling_mean demo_mean in_daily demo_hist64
             (const_rsi64 55) "NEWIPO" World0 Hun).
  - apply (unavailable_returns_None demo_rolling_mean demo_mean in_daily demo_hist64
             (const_rsi64 55) "NEWIPO" World0 Hun).
Defined.

(** C2, as stated, fails: a series of 120 bars and a series of 200 bars
    that fails the rule give the same result and the same kind of record,
    and neither is in the pass list. *)
Lemma short_series_reported_like_fail :
  length short_frame64 = 120 /\ length flat_frame64 = 200 /\
  screen_stock (arith := demo_doubles) demo_hist64 (const_rsi64 55)
    "NEWIPO" in_daily N_BARS World0
    = (Ok None, emit [(INFO, "Screening stock: NEWIPO")] World0) /\
  screen_stock (arith := demo_doubles) demo_hist64 (const_rsi64 55)
    "TCS" in_daily N_BARS World0
    = (Ok None, emit [(INFO, "Screening stock: TCS")] World0) /\
  fst (main_screen (arith := demo_doubles) in_daily demo_hist64 (const_rsi64 55)
         ["NEWIPO"; "TCS"] [] World0) = Ok [] /\
  ~ (verdict_of (fst (screen_stock (arith := demo_doubles) demo_hist64
                        (const_rsi64 55) "NEWIPO" in_daily N_BARS World0))
     <> verdict_of (fst (screen_stock (arith := demo_doubles) demo_hist64
                           (const_rsi64 55) "TCS" in_daily N_BARS World0))).
Proof.
  repeat split; try (vm_compute; reflexivity).
  intros Hne. apply Hne. vm_compute. reflexivity.
Qed.

Lemma pass_list_no_duplicates_witness :
  Pool.run 2 (Pool.submit_all ["RELIANCE"; "TCS"; "INFY"]) two_workers
    = Some {| Pool.pending := []; Pool.in_flight := [];
              Pool.completed := ["TCS"; "INFY"; "RELIANCE"];
              Pool.stop_flag := false |} /\
  exists selected_stocks w',
    main_screen in_daily demo_hist (const_rsi 55) ["TCS"; "INFY"; "RELIANCE"] [] World0
      = (Ok selected_stocks, w') /\
    (forall s, count_occ string_dec selected_stocks s
               <= count_occ string_dec ["RELIANCE"; "TCS"; "INFY"] s) /\
    (NoDup ["RELIANCE"; "TCS"; "INFY"] -> NoDup selected_stocks) /\
    (forall s, screenings s (log w')
               = screenings s (log (@World0 DailyInterval))
                 + count_occ string_dec ["RELIANCE"; "TCS"; "INFY"] s) /\
    (forall s,
       s <> "" ->
       fst (screen_stock demo_hist (const_rsi 55) s in_daily N_BARS World0)
       = Ok (Some s) ->
       count_occ string_dec selected_stocks s
       = count_occ string_dec ["RELIANCE"; "TCS"; "INFY"] s) /\
    (forall s,
       ~ (s <> "" /\
          fst (screen_stock demo_hist (const_rsi 55) s in_daily N_BARS World0)
          = Ok (Some s)) ->
       count_occ string_dec selected_stocks s = 0).
Proof.
  split; [reflexivity|].
  apply (pass_list_no_duplicates in_daily demo_hist (const_rsi 55) 2
           ["RELIANCE"; "TCS"; "INFY"] two_workers
           {| Pool.pending := []; Pool.in_flight := [];
              Pool.completed := ["TCS"; "INFY"; "RELIANCE"];
              Pool.stop_flag := false |} World0).
  - reflexivity.
  - split; reflexivity.
Defined.

(** C3, as stated, fails: a universe that lists a passing symbol twice
    gives a pass list with that symbol twice, with one worker as with
    three. *)
Lemma duplicate_symbol_passes_twice :
  Pool.run 1 (Pool.submit_all ["RELIANCE"; "RELIANCE"])
    [Pool.Start; Pool.Finish "RELIANCE"; Pool.Start; Pool.Finish "RELIANCE"]
    = Some {| Pool.pending := []; Pool.in_flight := [];
              Pool.completed := ["RELIANCE"; "RELIANCE"];
              Pool.stop_flag := false |} /\
  Pool.run MAX_WORKERS (Pool.submit_all ["RELIANCE"; "RELIANCE"])
    [Pool.Start; Pool.Start; Pool.Finish "RELIANCE"; Pool.Finish "RELIANCE"]
    = Some {| Pool.pending := []; Pool.in_flight := [];
              Pool.completed := ["RELIANCE"; "RELIANCE"];
              Pool.stop_flag := false |} /\
  fst (main_screen in_daily demo_hist (const_rsi 55) ["RELIANCE"; "RELIANCE"] [] World0)
    = Ok ["RELIANCE"; "RELIANCE"] /\
  ~ NoDup ["RELIANCE"; "RELIANCE"].
Proof.
  repeat split; try (vm_compute; reflexivity).
  intros Hnd. inversion Hnd as [|x l Hnin _]. apply Hnin. now left.
Qed.

Lemma failure_isolation_witness :
  exists selected_stocks w',
    main_screen in_daily outage_hist (const_rsi 55) ["INFY"; "RELIANCE"; "TCS"] [] World0
      = (Ok selected_stocks, w') /\
    ~ In "RELIANCE" selected_stocks /\
    (In "RELIANCE" ["INFY"; "RELIANCE"; "TCS"] ->
     In (ERROR, "Error fetching data for RELIANCE: ConnectionError") (log w')) /\
    (forall s w1 w2, s <> "RELIANCE" ->
       fst (screen_stock outage_hist (const_rsi 55) s in_daily N_BARS w1)
       = fst (screen_stock demo_hist (const_rsi 55) s in_daily N_BARS w2)) /\
    (exists selected0 w0,
       main_screen in_daily demo_hist (const_rsi 55) ["INFY"; "RELIANCE"; "TCS"] [] World0
         = (Ok selected0, w0) /\
       selected_stocks = filter (fun s => negb (String.eqb s "RELIANCE")) selected0).
Proof.
  apply (failure_isolation in_daily outage_hist (const_rsi 55) demo_hist "RELIANCE").
  - left. exists "ConnectionError". split; reflexivity.
  - intros s exchange interval n_bars Hne. unfold outage_hist.
    now destruct (String.eqb_spec s "RELIANCE").
Defined.

Lemma one_feed_per_occurrence_witness :
  exists w',
    main_subscribe in_daily quiet_feed ["RELIANCE"; "INFY"] World0 = (Ok tt, w') /\
    (forall s,
       feeds_opened s (tv_calls w')
       = feeds_opened s (tv_calls (@World0 DailyInterval))
         + count_occ string_dec ["RELIANCE"; "INFY"] s /\
       consumers_attached s (tv_calls w')
       = consumers_attached s (tv_calls (@World0 DailyInterval))
         + count_occ string_dec ["RELIANCE"; "INFY"] s /\
       tracked s (seis_list w')
       = tracked s (seis_list (@World0 DailyInterval))
         + count_occ string_dec ["RELIANCE"; "INFY"] s) /\
    map seis_symbol (seis_list w')
    = map seis_symbol (seis_list (@World0 DailyInterval)) ++ ["RELIANCE"; "INFY"].
Proof.
  apply (one_feed_per_occurrence in_daily quiet_feed ["RELIANCE"; "INFY"] World0).
  intros c. reflexivity.
Defined.

(** C5, as stated, fails: with RELIANCE twice in the pass list the script
    opens two feeds for it, attaches two consumers and tracks two entries. *)
Lemma duplicate_symbol_subscribed_twice :
  fst duplicate_run = Ok tt /\
  seis_list (snd duplicate_run) = [feed 0 "RELIANCE"; feed 1 "RELIANCE"] /\
  tv_calls (snd duplicate_run)
  = [new_seis "RELIANCE" "NSE" in_daily; new_consumer (feed 0 "RELIANCE");
     new_seis "RELIANCE" "NSE" in_daily; new_consumer (feed 1 "RELIANCE")] /\
  feeds_opened "RELIANCE" (tv_calls (snd duplicate_run)) = 2 /\
  consumers_attached "RELIANCE" (tv_calls (snd duplicate_run)) = 2 /\
  ~ (feeds_opened "RELIANCE" (tv_calls (snd duplicate_run)) = 1 /\
     consumers_attached "RELIANCE" (tv_calls (snd duplicate_run)) = 1).
Proof.
  repeat split; try (vm_compute; reflexivity).
  intros [H _]. vm_compute in H. discriminate.
Qed.

(** C6, as stated, fails: when detaching the first consumer raises, its
    feed is not closed and the second feed is neither detached nor closed;
    the exception leaves the handler before [sys.exit(0)]. *)
Lemma detach_failure_stops_teardown :
  fst interrupted_run = Raise "DetachError" /\
  seis_list (snd interrupted_run) = [feed 0 "RELIANCE"; feed 1 "INFY"] /\
  tv_calls (snd interrupted_run)
  = [new_seis "RELIANCE" "NSE" in_daily; new_consumer (feed 0 "RELIANCE");
     new_seis "INFY" "NSE" in_daily; new_consumer (feed 1 "INFY");
     del_consumer (feed 0 "RELIANCE")] /\
  ~ In (del_seis (feed 0 "RELIANCE")) (tv_calls (snd interrupted_run)) /\
  ~ In (del_consumer (feed 1 "INFY")) (tv_calls (snd interrupted_run)) /\
  ~ In (del_seis (feed 1 "INFY")) (tv_calls (snd interrupted_run)).
Proof.
  repeat split; try (vm_compute; reflexivity);
    intros H; vm_compute in H; intuition discriminate.
Qed.

Lemma teardown_until_first_raise_witness :
  fst (signal_handler quiet_feed (snd duplicate_run)) = SystemExit 0 /\
  tv_calls (snd (signal_handler quiet_feed (snd duplicate_run)))
  = tv_calls (snd duplicate_run) ++ teardown_calls (seis_list (snd duplicate_run)).
Proof.
  destruct (teardown_until_first_raise quiet_feed (snd duplicate_run))
    as (r & attempted & rest & w' & Hrun & _ & Hcalls & _ & _ & Hall).
  rewrite Hrun. cbn [fst snd].
  destruct Hall as [-> ->]; [apply Forall_forall; reflexivity|].
  split; [reflexivity | exact Hcalls].
Defined.

Lemma startup_failures_witness :
  script in_daily demo_hist (const_rsi 55) missing_excel "/opt/screener"
    quiet_feed in_order demo_login World0
  = (SystemExit 1,
     emit [(INFO, "Attempting to initialize TvDatafeedLive with provided credentials...");
           (INFO, "Successfully initialized TvDatafeedLive.");
           (ERROR, "Error loading stock symbols: FileNotFoundError")] World0).
Proof.
  apply (proj1 (proj2 (startup_failures in_daily demo_hist (const_rsi 55)
                         missing_excel "/opt/screener" quiet_feed in_order
                         demo_login World0) eq_refl)
           "FileNotFoundError").
  reflexivity.
Defined.

(** C7, as stated, fails: on an empty universe the script does not exit
    with a non-zero status; it logs a warning and returns. *)
Lemma empty_universe_returns_normally :
  empty_run =
  (Ok tt,
   emit [(INFO, "Attempting to initialize TvDatafeedLive with provided credentials...");
         (INFO, "Successfully initialized TvDatafeedLive.");
         (INFO, "Stock symbols loaded successfully.");
         (WARNING, "No stocks to screen.")] World0) /\
  ~ (exit_status (fst empty_run) <> 0%Z).
Proof.
  split; [vm_compute; reflexivity|].
  intros H. apply H. vm_compute. reflexivity.
Qed.

Lemma verdict_deterministic_witness :
  verdict_of (fst (screen_stock demo_hist (const_rsi 55) "RELIANCE" in_daily N_BARS World0))
  = verdict_of (fst (screen_stock demo_hist (const_rsi 55) "INFY" in_daily N_BARS
                       (snd duplicate_run))) /\
  fst (screen_stock demo_hist (const_rsi 55) "RELIANCE" in_daily N_BARS World0)
  = fst (screen_stock demo_hist (const_rsi 55) "RELIANCE" in_daily N_BARS
           (snd duplicate_run)).
Proof.
  apply (verdict_deterministic in_daily demo_hist demo_hist (const_rsi 55)
           "RELIANCE" "INFY" World0 (snd duplicate_run)).
  reflexivity.
Defined.

Lemma pass_list_subset_witness :
  exists selected_stocks w',
    main_screen in_daily demo_hist (const_rsi 55) ["INFY"; "TCS"; "RELIANCE"] [] World0
      = (Ok selected_stocks, w') /\
    (forall s, In s selected_stocks -> In s ["RELIANCE"; "TCS"; "INFY"]) /\
    (forall symbol r w0,
       fst (screen_stock demo_hist (const_rsi 55) symbol in_daily N_BARS w0)
         = Ok (Some r) -> r = symbol).
Proof.
  apply (pass_list_subset in_daily demo_hist (const_rsi 55)
           ["RELIANCE"; "TCS"; "INFY"] ["INFY"; "TCS"; "RELIANCE"] World0).
  apply (Permutation_sym (Permutation_rev ["RELIANCE"; "TCS"; "INFY"])).
Defined.

(** *** Further runs *)

Lemma nan_close_never_passes_witness :
  selected in_daily gap_hist (const_rsi 55) "RELIANCE" = false /\
  (fst (screen_stock gap_hist (const_rsi 55) "RELIANCE" in_daily N_BARS World0) = Ok None \/
   exists e, fst (screen_stock gap_hist (const_rsi 55) "RELIANCE" in_daily N_BARS World0)
             = Raise e).
Proof.
  apply (nan_close_never_passes in_daily gap_hist (const_rsi 55) "RELIANCE" gap_frame World0).
  - reflexivity.
  - vm_compute. repeat (first [now left | right]).
Defined.


Lemma pass_list_order_independent_witness :
  exists selected1 selected2 w1' w2',
    main_screen in_daily demo_hist (const_rsi 55) ["RELIANCE"; "TCS"; "INFY"] [] World0
      = (Ok selected1, w1') /\
    main_screen in_daily demo_hist (const_rsi 55) ["INFY"; "TCS"; "RELIANCE"] [] World0
      = (Ok selected2, w2') /\
    Permutation selected1 selected2.
Proof.
  apply (pass_list_order_independent in_daily demo_hist (const_rsi 55)
           ["RELIANCE"; "TCS"; "INFY"] ["INFY"; "TCS"; "RELIANCE"] World0 World0).
  apply (Permutation_rev ["RELIANCE"; "TCS"; "INFY"]).
Defined.

Lemma each_symbol_screened_once_witness :
  exists selected_stocks w',
    main_screen in_daily demo_hist (const_rsi 55) ["INFY"; "RELIANCE"; "RELIANCE"] [] World0
      = (Ok selected_stocks, w') /\
    (forall s, screenings s (log w')
               = screenings s (log (@World0 DailyInterval))
                 + count_occ string_dec ["RELIANCE"; "INFY"; "RELIANCE"] s).
Proof.
  apply (each_symbol_screened_once in_daily demo_hist (const_rsi 55)
           ["RELIANCE"; "INFY"; "RELIANCE"] ["INFY"; "RELIANCE"; "RELIANCE"] World0).
  apply (Permutation_sym (perm_swap "INFY" "RELIANCE" ["RELIANCE"])).
Defined.

Lemma failed_attach_leaks_feed_witness :
  exists w1,
    main_subscribe in_daily deaf_feed ["RELIANCE"; "INFY"] World0
      = (Raise "AttachError", w1) /\
    seis_list w1 = [] /\
    tv_calls w1
    = [] ++ [new_seis "RELIANCE" "NSE" in_daily; new_consumer (feed 0 "RELIANCE")] /\
    exists r attempted w2,
      signal_handler deaf_feed w1 = (r, w2) /\
      tv_calls w2 = tv_calls w1 ++ attempted /\
      ~ In (del_seis (feed 0 "RELIANCE")) attempted.
Proof.
  apply (failed_attach_leaks_feed in_daily deaf_feed "RELIANCE" ["INFY"] World0
           "AttachError").
  - reflexivity.
  - reflexivity.
  - intros [].
Defined.

Lemma script_subscribes_pass_list_witness :
  exists w',
    script in_daily demo_hist (const_rsi 55) (demo_excel ["TCS"; "INFY"; "RELIANCE"])
      "/opt/screener" quiet_feed in_order demo_login World0 = (Ok tt, w') /\
    map seis_symbol (seis_list w')
    = map seis_symbol (seis_list (@World0 DailyInterval))
      ++ filter (selected in_daily demo_hist (const_rsi 55))
           (in_order ["TCS"; "INFY"; "RELIANCE"]) /\
    length (tv_calls w')
    = length (tv_calls (@World0 DailyInterval))
      + 2 * length (filter (selected in_daily demo_hist (const_rsi 55))
                      (in_order ["TCS"; "INFY"; "RELIANCE"])) /\
    stop_flag w' = stop_flag (@World0 DailyInterval) /\
    exists before,
      log w' = before ++
               [(INFO, repr_symbols
                         (filter (selected in_daily demo_hist (const_rsi 55))
                            (in_order ["TCS"; "INFY"; "RELIANCE"])))].
Proof.
  apply (script_subscribes_pass_list in_daily demo_hist (const_rsi 55)
           (demo_excel ["TCS"; "INFY"; "RELIANCE"]) "/opt/screener" quiet_feed
           in_order demo_login ["TCS"; "INFY"; "RELIANCE"] World0).
  - reflexivity.
  - reflexivity.
  - discriminate.
  - intros c. reflexivity.
Defined.

Lemma subscribe_teardown_round_trip_witness :
  exists w',
    script_then_sigint in_daily demo_hist (const_rsi 55)
      (demo_excel ["TCS"; "INFY"; "RELIANCE"]) "/opt/screener" quiet_feed in_order
      demo_login World0 = (SystemExit 0, w') /\
    stop_flag w' = true /\
    forall s,
      let passed :=
        count_occ string_dec
          (filter (selected in_daily demo_hist (const_rsi 55))
             (in_order ["TCS"; "INFY"; "RELIANCE"])) s in
      feeds_opened s (tv_calls w')
      = feeds_opened s (tv_calls (@World0 DailyInterval)) + passed /\
      consumers_attached s (tv_calls w')
      = consumers_attached s (tv_calls (@World0 DailyInterval)) + passed /\
      feeds_closed s (tv_calls w')
      = feeds_closed s (tv_calls (@World0 DailyInterval))
        + tracked s (seis_list (@World0 DailyInterval)) + passed /\
      consumers_detached s (tv_calls w')
      = consumers_detached s (tv_calls (@World0 DailyInterval))
        + tracked s (seis_list (@World0 DailyInterval)) + passed.
Proof.
  apply (subscribe_teardown_round_trip in_daily demo_hist (const_rsi 55)
           (demo_excel ["TCS"; "INFY"; "RELIANCE"]) "/opt/screener" quiet_feed
           in_order demo_login ["TCS"; "INFY"; "RELIANCE"] World0).
  - reflexivity.
  - reflexivity.
  - discriminate.
  - intros c. reflexivity.
Defined.
